(** * FileEngine Python client: the [ManagedFiles] adapter

    A shallow embedding of [fileengine/client.py].  The adapter builds an
    authentication context from the instance defaults and the per-call
    overrides, sends one or more requests through the gRPC stub, and turns
    the responses into plain Python values.

    Python values are embedded as follows.
    - [str] is [string]; [bytes] is [list Byte.byte]; [int] is [Z].
    - An optional keyword argument ([user: str = None]) is an [option];
      [None] is the omitted argument.
    - A [dict] with string keys is a [gmap string _].
    - A function that returns either a value or [False] returns [or_false].
    - The gRPC stub is an arbitrary state machine; every call is appended to a
      log, so that statements about the calls an operation issues are
      statements about the log. *)

From Stdlib Require Import ZArith QArith Ascii String.
From stdpp Require Import gmap strings list.

Local Open Scope string_scope.
Local Open Scope list_scope.

(** ** Python values *)

(** One element of a [claims] list.  The code inspects the element with
    [isinstance]: a [str], a [dict], a [tuple] (of any length), or an object
    of another type ([None], an [int], ...). *)
Inductive claim : Type :=
  | ClaimStr (s : string)
  | ClaimDict (d : gmap string string)
  | ClaimTuple (t : list string)
  | ClaimNone
  | ClaimInt (n : Z).

(** A result that is either a proper value or the Python constant [False]. *)
Inductive or_false (A : Type) : Type :=
  | Got (a : A)
  | PyFalse.
Arguments Got {A} a.
Arguments PyFalse {A}.

(** Truth value of an optional string argument: [None] and [''] are falsy. *)
Definition truthy_str (o : option string) : bool :=
  match o with
  | Some s => negb (String.eqb s "")
  | None => false
  end.

(** Truth value of an optional list argument: [None] and [[]] are falsy. *)
Definition truthy_list {A : Type} (o : option (list A)) : bool :=
  match o with
  | Some (_ :: _) => true
  | _ => false
  end.

(** [a or b] for an optional string [a]. *)
Definition py_or (a : option string) (b : string) : string :=
  match a with
  | Some s => if String.eqb s "" then b else s
  | None => b
  end.

(** [a or b] for an optional list [a]. *)
Definition py_or_list {A : Type} (a : option (list A)) (b : list A) : list A :=
  match a with
  | Some (x :: l) => x :: l
  | _ => b
  end.

(** [a if a is not None else b]. *)
Definition if_not_None {A : Type} (a : option A) (b : A) : A :=
  match a with
  | Some x => x
  | None => b
  end.

(** ** The adapter instance and the authentication context *)

(** The identity fields of a [ManagedFiles] instance ([self.user],
    [self.roles], [self.claims], [self.tenant]). *)
Record ManagedFiles : Type := mkManagedFiles {
  self_user : string;
  self_roles : list string;
  self_claims : list claim;
  self_tenant : string
}.

(** [fileservice_pb2.AuthenticationContext]. *)
Record AuthenticationContext : Type := mkAuth {
  auth_user : string;
  auth_roles : list string;
  auth_tenant : string;
  auth_claims : gmap string string
}.

(** [ManagedFiles.__init__], restricted to the identity fields. *)
Definition init (user_roles : option (list string)) (user_name : string)
    (tenant : string) (user_claims : option (list claim)) : ManagedFiles :=
  {| self_user := py_or (Some user_name) "user";
     self_roles := py_or_list user_roles [];
     self_claims := py_or_list user_claims [];
     self_tenant := tenant |}.

(** [ManagedFiles.set_user_information]. *)
Definition set_user_information (self : ManagedFiles)
    (user_name : option string) (roles : option (list string))
    (claims : option (list claim)) : ManagedFiles :=
  let self1 :=
    if truthy_str user_name
    then {| self_user := if_not_None user_name (self_user self);
            self_roles := self_roles self;
            self_claims := self_claims self;
            self_tenant := self_tenant self |}
    else self in
  let self2 :=
    if truthy_list roles
    then {| self_user := self_user self1;
            self_roles := if_not_None roles (self_roles self1);
            self_claims := self_claims self1;
            self_tenant := self_tenant self1 |}
    else self1 in
  if truthy_list claims
  then {| self_user := self_user self2;
          self_roles := self_roles self2;
          self_claims := if_not_None claims (self_claims self2);
          self_tenant := self_tenant self2 |}
  else self2.

(** The body of the [for claim in actual_claims] loop of
    [_create_auth_context]: one element updates [claims_map]. *)
Definition claims_step (claims_map : gmap string string) (c : claim)
    : gmap string string :=
  match c with
  | ClaimStr s => <[s := s]> claims_map
  | ClaimDict d => d ∪ claims_map
  | ClaimTuple t =>
      match t with
      | [k; v] => <[k := v]> claims_map
      | _ => claims_map
      end
  | _ => claims_map
  end.

(** The loop itself, with [claims_map] as the accumulator. *)
Fixpoint claims_loop (actual_claims : list claim)
    (claims_map : gmap string string) : gmap string string :=
  match actual_claims with
  | [] => claims_map
  | c :: rest => claims_loop rest (claims_step claims_map c)
  end.

(** [ManagedFiles._create_auth_context]. *)
Definition _create_auth_context (self : ManagedFiles)
    (user : option string) (tenant : option string)
    (roles : option (list string)) (claims : option (list claim))
    : AuthenticationContext :=
  let actual_user := py_or user (self_user self) in
  let actual_tenant := if_not_None tenant (self_tenant self) in
  let actual_roles := if_not_None roles (self_roles self) in
  let actual_claims := if_not_None claims (self_claims self) in
  let claims_map :=
    match actual_claims with
    | [] => ∅
    | _ :: _ => claims_loop actual_claims ∅
    end in
  {| auth_user := actual_user;
     auth_roles := actual_roles;
     auth_tenant := actual_tenant;
     auth_claims := claims_map |}.

(** ** The claim normalisation as the specification words it *)

(** The three admitted element shapes. *)
Definition well_shaped (c : claim) : bool :=
  match c with
  | ClaimStr _ | ClaimDict _ | ClaimTuple [_; _] => true
  | _ => false
  end.

(** The entries one element contributes: a string maps to itself, a mapping
    contributes its entries, a pair maps its first component to its second.
    Any other shape is the condition [InvalidClaimShape], here [None]. *)
Definition claim_entries_spec (c : claim) : option (gmap string string) :=
  match c with
  | ClaimStr s => Some {[ s := s ]}
  | ClaimDict d => Some d
  | ClaimTuple [k; v] => Some {[ k := v ]}
  | _ => None
  end.

(** The value the last element of [l] that mentions [k] gives to [k]. *)
Fixpoint last_binding (l : list claim) (k : string) : option string :=
  match l with
  | [] => None
  | c :: rest =>
      match last_binding rest k with
      | Some v => Some v
      | None => claim_entries_spec c ≫= (.!! k)
      end
  end.

(** The union of the contributions, later list positions taking precedence
    ([∪] on [gmap] prefers its left operand). *)
Fixpoint normalize_claims_spec (l : list claim) : option (gmap string string) :=
  match l with
  | [] => Some ∅
  | c :: rest =>
      match claim_entries_spec c, normalize_claims_spec rest with
      | Some e, Some m => Some (m ∪ e)
      | _, _ => None
      end
  end.

(** ** The gRPC stub *)

(** [FileType] constants of the service contract, as [tests/test_dataclasses.py]
    fixes them. *)
Definition REGULAR_FILE : Z := 0.
Definition DIRECTORY : Z := 1.
Definition SYMLINK : Z := 2.

(** A directory entry of a listing response. *)
Record DirectoryEntry : Type := mkEntry {
  entry_uid : string;
  entry_name : string;
  entry_type : Z
}.

(** The [info] field of a [Stat] response. *)
Record FileInfo : Type := mkInfo {
  info_name : string;
  info_type : Z;
  info_created_at : Z;
  info_modified_at : Z
}.

(** The request messages the modelled operations build. *)
Inductive request : Type :=
  | ListDirectoryRequest (uid : string) (auth : AuthenticationContext)
  | ListDirectoryWithDeletedRequest (uid : string) (auth : AuthenticationContext)
  | StatRequest (uid : string) (auth : AuthenticationContext)
  | PutFileRequest (uid : string) (auth : AuthenticationContext)
      (data : list Byte.byte)
  | GetVersionRequest (uid : string) (version_timestamp : string)
      (auth : AuthenticationContext)
  | ListVersionsRequest (uid : string) (auth : AuthenticationContext)
  | MoveRequest (source_uid destination_parent_uid : string)
      (auth : AuthenticationContext)
  | RemoveDirectoryRequest (uid : string) (auth : AuthenticationContext)
  | RemoveFileRequest (uid : string) (auth : AuthenticationContext)
  | RenameRequest (uid new_name : string) (auth : AuthenticationContext).

(** The stub methods the modelled operations invoke. *)
Inductive rpc : Type :=
  | ListDirectory
  | ListDirectoryWithDeleted
  | Stat
  | PutFile
  | GetVersion
  | ListVersions
  | Move
  | RemoveDirectory
  | RemoveFile
  | Rename.

#[global] Instance rpc_eq_dec : EqDecision rpc.
Proof. solve_decision. Defined.

(** The fields of the response messages that [client.py] reads.  The
    generated module [fileservice_pb2] is not part of the sources; a field a
    message does not carry holds its protobuf default. *)
Record response : Type := mkResponse {
  success : bool;
  entries : list DirectoryEntry;
  info : FileInfo;
  data : list Byte.byte;
  versions : list string
}.

(** What a stub call comes back with: a response message, or the transport
    failure that Python sees as [grpc.RpcError]. *)
Inductive reply : Type :=
  | Responded (r : response)
  | TransportFailure.

(** The ways [datetime.fromtimestamp] rejects a timestamp it cannot turn
    into a local time: [ValueError] (the year is out of range),
    [OverflowError] (the value does not fit the platform's [time_t]) and
    [OSError] (the platform's [localtime] fails). *)
Inductive timestamp_error : Type :=
  | YearOutOfRange
  | TimestampOverflow
  | LocaltimeFailed.

(** The environment of the adapter: the remote service behind the stub, in
    an arbitrary state [S], the wall clock read by [time.time()], and the
    timestamps the platform's [datetime.fromtimestamp] rejects, each with the
    error it raises. *)
Class FileService (S : Type) : Type := {
  stub : rpc -> request -> S -> reply * S;
  time_time : S -> Q;
  fromtimestamp_error : Z -> option timestamp_error
}.

(** The first and the last second of the years 1 to 9999 in UTC. *)
Definition MIN_TIMESTAMP : Z := -62135596800.
Definition MAX_TIMESTAMP : Z := 253402300799.

(** A stateless service given by a table of answers, on a platform whose
    local time is UTC and that represents exactly the years 1 to 9999. *)
#[global] Instance oracle : FileService (rpc -> request -> reply) := {|
  stub := fun method req table => (table method req, table);
  time_time := fun _ => 0%Q;
  fromtimestamp_error := fun t =>
    if (t <? MIN_TIMESTAMP)%Z || (MAX_TIMESTAMP <? t)%Z
    then Some YearOutOfRange
    else None
|}.

(** ** Effects: the call log and Python exceptions *)

Inductive exn : Type :=
  | RpcError
  | NotImplementedError (message : string)
  | IndexError
  | ValueError
  | OverflowError
  | OSError.

(** The exception a rejected timestamp surfaces as. *)
Definition timestamp_exn (err : timestamp_error) : exn :=
  match err with
  | YearOutOfRange => ValueError
  | TimestampOverflow => OverflowError
  | LocaltimeFailed => OSError
  end.

Inductive outcome (A : Type) : Type :=
  | Return (a : A)
  | Raise (e : exn).
Arguments Return {A} a.
Arguments Raise {A} e.

(** The service state together with the calls issued so far, oldest first. *)
Record World (S : Type) : Type := mkWorld {
  server : S;
  calls : list (rpc * request)
}.
Arguments mkWorld {S} server calls.
Arguments server {S} w.
Arguments calls {S} w.

Definition M (S A : Type) : Type := World S -> outcome A * World S.

Definition ret {S A : Type} (a : A) : M S A := fun w => (Return a, w).

Definition raise {S A : Type} (e : exn) : M S A := fun w => (Raise e, w).

Definition bind {S A B : Type} (m : M S A) (k : A -> M S B) : M S B :=
  fun w =>
    match m w with
    | (Return a, w') => k a w'
    | (Raise e, w') => (Raise e, w')
    end.

#[global] Instance M_ret {S : Type} : MRet (M S) := fun A => ret.
#[global] Instance M_bind {S : Type} : MBind (M S) := fun A B k m => bind m k.

(** [try: body except grpc.RpcError: handler]. *)
Definition try_except_RpcError {S A : Type} (body handler : M S A) : M S A :=
  fun w =>
    match body w with
    | (Raise RpcError, w') => handler w'
    | r => r
    end.

(** [self.stub.Method(request)]: the call is logged, then either yields the
    response or raises [grpc.RpcError]. *)
Definition stub_call {S : Type} `{FileService S} (method : rpc) (req : request)
    : M S response :=
  fun w =>
    let (r, s') := stub method req (server w) in
    let w' := mkWorld s' (calls w ++ [(method, req)]) in
    match r with
    | Responded resp => (Return resp, w')
    | TransportFailure => (Raise RpcError, w')
    end.

(** [time.time()]. *)
Definition now {S : Type} `{FileService S} : M S Q :=
  fun w => (Return (time_time (server w)), w).

(** [l[i]] for a Python list and an [int] index: a negative index counts from
    the end, an index outside [-len(l) .. len(l)-1] raises [IndexError]. *)
Definition py_index {S A : Type} (l : list A) (i : Z) : M S A :=
  let j := if (i <? 0)%Z then (Z.of_nat (length l) + i)%Z else i in
  if (j <? 0)%Z then raise IndexError
  else match l !! Z.to_nat j with
       | Some x => ret x
       | None => raise IndexError
       end.

(** ** The operations *)

(** [uid.split('-')]. *)
Fixpoint split_dash (s : string) : list string :=
  match s with
  | EmptyString => [EmptyString]
  | String c rest =>
      if Ascii.eqb c "-"%char then EmptyString :: split_dash rest
      else match split_dash rest with
           | h :: t => String c h :: t
           | [] => [String c EmptyString]
           end
  end.

(** ['-' in uid]. *)
Fixpoint has_dash (s : string) : bool :=
  match s with
  | EmptyString => false
  | String c rest => Ascii.eqb c "-"%char || has_dash rest
  end.

(** One dictionary of the list [revisions] returns. *)
Record revision : Type := mkRevision {
  rev_version : string;
  rev_name : string;
  rev_user : string
}.

(** [list(auth_context.claims.keys())]. *)
Definition claims_keys (auth_context : AuthenticationContext) : list claim :=
  ClaimStr <$> (map_to_list (auth_claims auth_context)).*1.

(** [ManagedFiles.revisions]. *)
Definition revisions {S : Type} `{FileService S} (self : ManagedFiles)
    (uid : string) (user tenant : option string)
    (roles : option (list string)) (claims : option (list claim))
    : M S (list revision) :=
  let auth_context := _create_auth_context self user tenant roles claims in
  try_except_RpcError
    (response ← stub_call ListVersions (ListVersionsRequest uid auth_context);
     if success response
     then mret ((fun version_timestamp =>
                   {| rev_version := version_timestamp;
                      rev_name := if has_dash uid
                                  then List.last (split_dash uid) EmptyString
                                  else uid;
                      rev_user := auth_user auth_context |})
                <$> versions response)
     else mret [])
    (mret []).

(** A [datetime] is identified with the timestamp it was built from. *)
Inductive datetime : Type :=
  | at_timestamp (t : Z).

(** [datetime.fromtimestamp(t)]: the [datetime] of [t], or the error the
    platform raises for it. *)
Definition fromtimestamp {S : Type} `{FileService S} (t : Z) : M S datetime :=
  match fromtimestamp_error t with
  | None => ret (at_timestamp t)
  | Some err => raise (timestamp_exn err)
  end.

(** [ManagedFiles.get_file_mtime]. *)
Definition get_file_mtime {S : Type} `{FileService S} (self : ManagedFiles)
    (uid : string) (user tenant : option string)
    (roles : option (list string)) (claims : option (list claim))
    : M S (option datetime) :=
  let auth_context := _create_auth_context self user tenant roles claims in
  try_except_RpcError
    (response ← stub_call Stat (StatRequest uid auth_context);
     if success response
     then
       modified ← fromtimestamp (info_modified_at (info response));
       mret (Some modified)
     else mret None)
    (mret None).

(** [ManagedFiles.file_name]. *)
Definition file_name {S : Type} `{FileService S} (self : ManagedFiles)
    (uid : string) (user tenant : option string)
    (roles : option (list string)) (claims : option (list claim))
    : M S (list string) :=
  let auth_context := _create_auth_context self user tenant roles claims in
  try_except_RpcError
    (response ← stub_call Stat (StatRequest uid auth_context);
     if success response
     then mret [info_name (info response)]
     else mret [])
    (mret []).

(** A value stored in one of the dictionaries [dir] returns: a string, or
    the result of [get_file_mtime] (a [datetime] or [None]). *)
Inductive item_value : Type :=
  | ItemStr (s : string)
  | ItemTime (t : option datetime).

(** The body of the [for entry in response.entries] loop of [dir]: the
    dictionary built for one entry. *)
Definition dir_item {S : Type} `{FileService S} (self : ManagedFiles)
    (auth_context : AuthenticationContext) (entry : DirectoryEntry)
    : M S (gmap string item_value) :=
  let item : gmap string item_value :=
    {[ "uid" := ItemStr (entry_uid entry);
       "name" := ItemStr (entry_name entry);
       "creator" := ItemStr (auth_user auth_context);
       "is_container" :=
         ItemStr (if (entry_type entry =? DIRECTORY)%Z then "True" else "False") ]} in
  if (entry_type entry =? REGULAR_FILE)%Z
  then
    revs ← revisions self (entry_uid entry)
              (Some (auth_user auth_context)) (Some (auth_tenant auth_context))
              (Some (auth_roles auth_context)) (Some (claims_keys auth_context));
    match revs with
    | [] => mret item
    | latest :: _ =>
        let item := <["uploading_user" := ItemStr (auth_user auth_context)]> item in
        let item := <["version" := ItemStr (rev_version latest)]> item in
        mtime ← get_file_mtime self (entry_uid entry)
                   (Some (auth_user auth_context)) (Some (auth_tenant auth_context))
                   (Some (auth_roles auth_context)) (Some (claims_keys auth_context));
        mret (<["mtime" := ItemTime mtime]> item)
    end
  else mret item.

(** The loop over the entries, appending each dictionary to [result]. *)
Fixpoint dir_loop {S : Type} `{FileService S} (self : ManagedFiles)
    (auth_context : AuthenticationContext) (es : list DirectoryEntry)
    (result : list (gmap string item_value))
    : M S (list (gmap string item_value)) :=
  match es with
  | [] => mret result
  | entry :: rest =>
      item ← dir_item self auth_context entry;
      dir_loop self auth_context rest (result ++ [item])
  end.

(** [ManagedFiles.dir]. *)
Definition dir {S : Type} `{FileService S} (self : ManagedFiles)
    (uid : string) (show_deleted : bool) (user tenant : option string)
    (roles : option (list string)) (claims : option (list claim))
    : M S (or_false (list (gmap string item_value))) :=
  let auth_context := _create_auth_context self user tenant roles claims in
  try_except_RpcError
    (response ←
       (if show_deleted
        then stub_call ListDirectoryWithDeleted
               (ListDirectoryWithDeletedRequest uid auth_context)
        else stub_call ListDirectory (ListDirectoryRequest uid auth_context));
     if negb (success response) then mret PyFalse
     else
       result ← dir_loop self auth_context (entries response) [];
       mret (Got result))
    (mret PyFalse).

(** The [payload] argument of [put]: [None], a [str] or [bytes]. *)
Inductive payload_arg : Type :=
  | PayloadNone
  | PayloadStr (s : string)
  | PayloadBytes (b : list Byte.byte).

(** [ManagedFiles.put].  A [str] payload is encoded to its bytes. *)
Definition put {S : Type} `{FileService S} (self : ManagedFiles)
    (uid : string) (payload : payload_arg) (return_open : bool)
    (user tenant : option string)
    (roles : option (list string)) (claims : option (list claim))
    : M S (or_false Q) :=
  if return_open
  then raise (NotImplementedError
                "return_open parameter not supported in gRPC implementation")
  else
    let payload :=
      match payload with
      | PayloadNone => []
      | PayloadStr s => list_byte_of_string s
      | PayloadBytes b => b
      end in
    let auth_context := _create_auth_context self user tenant roles claims in
    try_except_RpcError
      (response ← stub_call PutFile (PutFileRequest uid auth_context payload);
       if success response
       then t ← now; mret (Got t)
       else mret PyFalse)
      (mret PyFalse).

(** An [io.BytesIO] object: its content and its stream position. *)
Record BytesIO : Type := mkBytesIO {
  getvalue : list Byte.byte;
  tell : nat
}.

(** [ManagedFiles.get]. *)
Definition get {S : Type} `{FileService S} (self : ManagedFiles)
    (uid : string) (back : Z) (user tenant : option string)
    (roles : option (list string)) (claims : option (list claim))
    : M S (or_false BytesIO) :=
  let auth_context := _create_auth_context self user tenant roles claims in
  vs ← revisions self uid
          (Some (auth_user auth_context)) (Some (auth_tenant auth_context))
          (Some (auth_roles auth_context)) (Some (claims_keys auth_context));
  if bool_decide (vs = []) || (Z.of_nat (length vs) <=? back)%Z
  then mret PyFalse
  else
    v ← py_index vs back;
    let version_timestamp := rev_version v in
    try_except_RpcError
      (response ← stub_call GetVersion
                     (GetVersionRequest uid version_timestamp auth_context);
       if success response
       then mret (Got {| getvalue := data response; tell := 0 |})
       else mret PyFalse)
      (mret PyFalse).

(** [ManagedFiles.rename]. *)
Definition rename {S : Type} `{FileService S} (self : ManagedFiles)
    (uid new_name : string) (user tenant : option string)
    (roles : option (list string)) (claims : option (list claim))
    : M S bool :=
  let auth_context := _create_auth_context self user tenant roles claims in
  try_except_RpcError
    (response ← stub_call Rename (RenameRequest uid new_name auth_context);
     mret (success response))
    (mret false).

(** [ManagedFiles.move]. *)
Definition move {S : Type} `{FileService S} (self : ManagedFiles)
    (source_uid destination_uid : string) (new_name : option string)
    (user tenant : option string)
    (roles : option (list string)) (claims : option (list claim))
    : M S bool :=
  let auth_context := _create_auth_context self user tenant roles claims in
  try_except_RpcError
    (response ← stub_call Move
                   (MoveRequest source_uid destination_uid auth_context);
     if success response && truthy_str new_name
     then
       rename_response ← rename self source_uid (if_not_None new_name "")
                            user tenant roles claims;
       mret rename_response
     else mret (success response))
    (mret false).

(** [ManagedFiles.remove]. *)
Definition remove {S : Type} `{FileService S} (self : ManagedFiles)
    (uid : string) (user tenant : option string)
    (roles : option (list string)) (claims : option (list claim))
    : M S bool :=
  let auth_context := _create_auth_context self user tenant roles claims in
  try_except_RpcError
    (info_resp ← stub_call Stat (StatRequest uid auth_context);
     response ←
       (if success info_resp && (info_type (info info_resp) =? DIRECTORY)%Z
        then stub_call RemoveDirectory (RemoveDirectoryRequest uid auth_context)
        else stub_call RemoveFile (RemoveFileRequest uid auth_context));
     mret (success response))
    (mret false).

(** ** Observations on a run *)

(** What the stub answers to a call issued in world [w], and the world the
    call leaves behind. *)
Definition answer {S : Type} `{FileService S} (w : World S) (method : rpc)
    (req : request) : reply :=
  (stub method req (server w)).1.

Definition sent {S : Type} `{FileService S} (w : World S) (method : rpc)
    (req : request) : World S :=
  mkWorld (stub method req (server w)).2 (calls w ++ [(method, req)]).

(** The calls to [method] among [cs]. *)
Definition calls_to (method : rpc) (cs : list (rpc * request)) : list request :=
  (filter (fun c => c.1 = method) cs).*2.

(** A response that carries only a success flag. *)
Definition flag_response (ok : bool) : response :=
  {| success := ok; entries := []; info := mkInfo "" 0 0 0; data := [];
     versions := [] |}.

(** ** Fixtures *)

(** An adapter instance with non-empty defaults. *)
Definition alice : ManagedFiles :=
  init (Some ["user"]) "alice" "t" (Some [ClaimStr "read"]).

(** The context [alice] sends when no override is given. *)
Definition alice_auth : AuthenticationContext :=
  _create_auth_context alice None None None None.

(** A service holding one file with the revisions [v2] (latest) and [v1]. *)
Definition two_revisions (method : rpc) (req : request) : reply :=
  match method, req with
  | ListVersions, ListVersionsRequest _ _ =>
      Responded {| success := true; entries := []; info := mkInfo "" 0 0 0;
                   data := []; versions := ["v2"; "v1"] |}
  | GetVersion, GetVersionRequest _ version_timestamp _ =>
      Responded {| success := true; entries := []; info := mkInfo "" 0 0 0;
                   data := list_byte_of_string
                             (String.append "content of " version_timestamp);
                   versions := [] |}
  | _, _ => TransportFailure
  end.

(** A service on which every identifier is an entity of type [type];
    removals succeed, and so does a move, while a rename is refused. *)
Definition all_of_type (type : Z) (method : rpc) (req : request) : reply :=
  match method with
  | Stat =>
      Responded {| success := true; entries := []; info := mkInfo "n" type 0 0;
                   data := []; versions := [] |}
  | RemoveDirectory | RemoveFile | Move => Responded (flag_response true)
  | Rename => Responded (flag_response false)
  | _ => TransportFailure
  end.

(** A service that cannot be reached. *)
Definition unreachable (method : rpc) (req : request) : reply :=
  TransportFailure.

(** A service that refuses every call but a file removal. *)
Definition refusing (method : rpc) (req : request) : reply :=
  match method with
  | RemoveFile => Responded (flag_response true)
  | _ => Responded (flag_response false)
  end.

(** ** Further operations on [Stat] *)

(** [ManagedFiles.is_dir]. *)
Definition is_dir {S : Type} `{FileService S} (self : ManagedFiles)
    (uid : string) (user tenant : option string)
    (roles : option (list string)) (claims : option (list claim))
    : M S bool :=
  let auth_context := _create_auth_context self user tenant roles claims in
  try_except_RpcError
    (response ← stub_call Stat (StatRequest uid auth_context);
     if success response
     then mret (info_type (info response) =? DIRECTORY)%Z
     else mret false)
    (mret false).

(** [ManagedFiles.get_folder_cdate]. *)
Definition get_folder_cdate {S : Type} `{FileService S} (self : ManagedFiles)
    (uid : string) (user tenant : option string)
    (roles : option (list string)) (claims : option (list claim))
    : M S (option datetime) :=
  let auth_context := _create_auth_context self user tenant roles claims in
  try_except_RpcError
    (response ← stub_call Stat (StatRequest uid auth_context);
     if success response
     then
       created ← fromtimestamp (info_created_at (info response));
       mret (Some created)
     else mret None)
    (mret None).

(** ** Vocabulary for the statements *)

(** The context that [get] and [dir] hand to the operations they call:
    [user=auth_context.user, tenant=auth_context.tenant,
    roles=auth_context.roles, claims=list(auth_context.claims.keys())]. *)
Definition forwarded_context (self : ManagedFiles)
    (auth_context : AuthenticationContext) : AuthenticationContext :=
  _create_auth_context self
    (Some (auth_user auth_context)) (Some (auth_tenant auth_context))
    (Some (auth_roles auth_context)) (Some (claims_keys auth_context)).

(** The revision list [revisions] hands back in world [w]. *)
Definition listed {S : Type} `{FileService S} (self : ManagedFiles)
    (uid : string) (user tenant : option string)
    (roles : option (list string)) (claims : option (list claim))
    (w : World S) : list revision :=
  match (revisions self uid user tenant roles claims w).1 with
  | Return vs => vs
  | Raise _ => []
  end.

(** The keys every dictionary of a [dir] result has, and the keys added for a
    file with revisions. *)
Definition base_keys : gset string :=
  {[ "uid"; "name"; "creator"; "is_container" ]}.

Definition version_keys : gset string :=
  {[ "uploading_user"; "version"; "mtime" ]}.

(** [item] is a dictionary [dir] may build for [entry] under [auth_context]. *)
Definition describes (auth_context : AuthenticationContext)
    (entry : DirectoryEntry) (item : gmap string item_value) : Prop :=
  item !! "uid" = Some (ItemStr (entry_uid entry))
  /\ item !! "name" = Some (ItemStr (entry_name entry))
  /\ item !! "creator" = Some (ItemStr (auth_user auth_context))
  /\ item !! "is_container"
     = Some (ItemStr (if (entry_type entry =? DIRECTORY)%Z then "True" else "False"))
  /\ (dom item = base_keys
      \/ entry_type entry = REGULAR_FILE
         /\ dom item = base_keys ∪ version_keys
         /\ item !! "uploading_user" = Some (ItemStr (auth_user auth_context))
         /\ (exists ts, item !! "version" = Some (ItemStr ts))
         /\ (exists t, item !! "mtime" = Some (ItemTime t))).

(** The entries of a listing that are regular files. *)
Definition regular_files (es : list DirectoryEntry) : list DirectoryEntry :=
  filter (fun e => entry_type e = REGULAR_FILE) es.

(** The world after the calls [cs], issued in this order. *)
Definition replay {S : Type} `{FileService S} (w : World S)
    (cs : list (rpc * request)) : World S :=
  foldl (fun w c => sent w c.1 c.2) w cs.

(** The calls [dir] issues for one entry, started in world [w]: none unless
    the entry is a regular file; for a regular file the listing of its
    revisions and, exactly when that listing is not empty, the [Stat] call
    for its modification time; both under the forwarded context. *)
Definition entry_calls {S : Type} `{FileService S} (self : ManagedFiles)
    (auth_context : AuthenticationContext) (entry : DirectoryEntry)
    (w : World S) : list (rpc * request) :=
  if (entry_type entry =? REGULAR_FILE)%Z
  then
    let listing :=
      (ListVersions,
       ListVersionsRequest (entry_uid entry) (forwarded_context self auth_context)) in
    match listed self (entry_uid entry)
            (Some (auth_user auth_context)) (Some (auth_tenant auth_context))
            (Some (auth_roles auth_context)) (Some (claims_keys auth_context)) w with
    | [] => [listing]
    | _ :: _ =>
        [listing;
         (Stat, StatRequest (entry_uid entry) (forwarded_context self auth_context))]
    end
  else [].

(** The calls [dir] issues for the entries [es], one entry after the other. *)
Fixpoint expected_calls {S : Type} `{FileService S} (self : ManagedFiles)
    (auth_context : AuthenticationContext) (es : list DirectoryEntry)
    (w : World S) : list (rpc * request) :=
  match es with
  | [] => []
  | entry :: rest =>
      entry_calls self auth_context entry w
      ++ expected_calls self auth_context rest
           (replay w (entry_calls self auth_context entry w))
  end.

(** [fromtimestamp] rejects, with [err], the modification time that a
    successful [Stat] response reports for one of the regular files among
    [es]. *)
Definition rejected_mtime {S : Type} `{FileService S} (self : ManagedFiles)
    (auth_context : AuthenticationContext) (es : list DirectoryEntry)
    (err : timestamp_error) : Prop :=
  exists (entry : DirectoryEntry) (w : World S) (r : response),
    entry ∈ regular_files es
    /\ answer w Stat
         (StatRequest (entry_uid entry) (forwarded_context self auth_context))
       = Responded r
    /\ success r = true
    /\ fromtimestamp_error (info_modified_at (info r)) = Some err.

(** The [Stat] call for [req] fails in world [w], at the transport or in its
    response. *)
Definition stat_failed {S : Type} `{FileService S} (w : World S) (req : request)
    : Prop :=
  answer w Stat req = TransportFailure
  \/ exists r, answer w Stat req = Responded r /\ success r = false.

(** One call of [set_user_information]: its three arguments. *)
Definition update : Type :=
  option string * option (list string) * option (list claim).

(** An instance after a sequence of [set_user_information] calls. *)
Definition after_updates (self : ManagedFiles) (us : list update) : ManagedFiles :=
  foldl (fun s u => set_user_information s u.1.1 u.1.2 u.2) self us.

(** [b or a], for the arguments of two successive calls. *)
Definition later_str (a b : option string) : option string :=
  if truthy_str b then b else a.

Definition later_list {A : Type} (a b : option (list A)) : option (list A) :=
  if truthy_list b then b else a.

(** A service with a directory [d] that holds a sub-directory and two files,
    of which only the first has revisions; a [Stat] call is refused. *)
Definition small_tree_listing : response :=
  {| success := true;
     entries := [mkEntry "u-1" "sub" DIRECTORY;
                 mkEntry "u-2" "a.txt" REGULAR_FILE;
                 mkEntry "u-3" "b.txt" REGULAR_FILE];
     info := mkInfo "" 0 0 0; data := []; versions := [] |}.

Definition small_tree (method : rpc) (req : request) : reply :=
  match method, req with
  | ListDirectory, ListDirectoryRequest _ _ => Responded small_tree_listing
  | ListVersions, ListVersionsRequest "u-2" _ =>
      Responded {| success := true; entries := []; info := mkInfo "" 0 0 0;
                   data := []; versions := ["v9"; "v8"] |}
  | ListVersions, _ => Responded (flag_response true)
  | _, _ => Responded (flag_response false)
  end.

(** A service with a directory that holds one file; the file has a revision,
    and its [Stat] response reports a modification time in the year 10000. *)
Definition year_10000_listing : response :=
  {| success := true; entries := [mkEntry "u-9" "late.txt" REGULAR_FILE];
     info := mkInfo "" 0 0 0; data := []; versions := [] |}.

Definition year_10000_stat : response :=
  {| success := true; entries := [];
     info := mkInfo "late.txt" REGULAR_FILE 0 (MAX_TIMESTAMP + 1);
     data := []; versions := [] |}.

Definition year_10000 (method : rpc) (req : request) : reply :=
  match method with
  | ListDirectory => Responded year_10000_listing
  | ListVersions =>
      Responded {| success := true; entries := []; info := mkInfo "" 0 0 0;
                   data := []; versions := ["v1"] |}
  | Stat => Responded year_10000_stat
  | _ => TransportFailure
  end.

(** ** The pass-through operations

    The operations below send one request and translate the response.  Their
    messages are kept apart from the ones above: the module has its own
    request and response types and its own call log, which lives in the
    service component of the world. *)

Module Further.

(** The request messages. *)
Inductive request : Type :=
  | MakeDirectoryRequest (parent_uid name : string) (auth : AuthenticationContext)
  | ExistsRequest (uid : string) (auth : AuthenticationContext)
  | TouchRequest (parent_uid name : string) (auth : AuthenticationContext)
  | CopyRequest (source_uid destination_parent_uid : string)
      (auth : AuthenticationContext)
  | SetMetadataRequest (uid key value : string) (auth : AuthenticationContext)
  | GetMetadataRequest (uid key : string) (auth : AuthenticationContext)
  | GetAllMetadataRequest (uid : string) (auth : AuthenticationContext)
  | DeleteMetadataRequest (uid key : string) (auth : AuthenticationContext)
  | GetMetadataForVersionRequest (uid version_timestamp key : string)
      (auth : AuthenticationContext)
  | GetAllMetadataForVersionRequest (uid version_timestamp : string)
      (auth : AuthenticationContext)
  | GrantPermissionRequest (resource_uid principal : string) (permission : Z)
      (auth : AuthenticationContext)
  | RevokePermissionRequest (resource_uid principal : string) (permission : Z)
      (auth : AuthenticationContext)
  | CheckPermissionRequest (resource_uid : string) (required_permission : Z)
      (auth : AuthenticationContext)
  | StorageUsageRequest (auth : AuthenticationContext) (tenant : string)
  | PurgeOldVersionsRequest (uid : string) (keep_count : Z)
      (auth : AuthenticationContext)
  | TriggerSyncRequest (tenant : string) (auth : AuthenticationContext)
  | UndeleteFileRequest (uid : string) (auth : AuthenticationContext)
  | RestoreToVersionRequest (uid version_timestamp : string)
      (auth : AuthenticationContext).

(** The stub methods. *)
Inductive rpc : Type :=
  | MakeDirectory
  | Exists
  | Touch
  | Copy
  | SetMetadata
  | GetMetadata
  | GetAllMetadata
  | DeleteMetadata
  | GetMetadataForVersion
  | GetAllMetadataForVersion
  | GrantPermission
  | RevokePermission
  | CheckPermission
  | GetStorageUsage
  | PurgeOldVersions
  | TriggerSync
  | UndeleteFile
  | RestoreToVersion.

(** The fields of the response messages that [client.py] reads; a field a
    message does not carry holds its protobuf default. *)
Record response : Type := mkResponse {
  success : bool;
  uid : string;
  exists_ : bool;
  value : string;
  metadata : gmap string string;
  has_permission : bool;
  total_space : Z;
  used_space : Z;
  available_space : Z;
  usage_percentage : Q;
  restored_version : string
}.

Inductive reply : Type :=
  | Responded (r : response)
  | TransportFailure.

(** The remote service behind these methods, in an arbitrary state [S], and
    the values the generated message classes accept for the integer fields
    of the requests ([permission] and [required_permission], [keep_count]):
    the constructor of a request raises [ValueError] for any other value.
    The module [fileservice_pb2] that fixes these ranges is not part of the
    sources. *)
Class Service (S : Type) : Type := {
  stub : rpc -> request -> S -> reply * S;
  accepts_permission : Z -> bool;
  accepts_keep_count : Z -> bool
}.

(** The values of a 32-bit signed field. *)
Definition int32 (n : Z) : bool :=
  (- 2 ^ 31 <=? n)%Z && (n <? 2 ^ 31)%Z.

(** A stateless service given by a table of answers, with 32-bit integer
    fields. *)
#[global] Instance oracle : Service (rpc -> request -> reply) := {|
  stub := fun method req table => (table method req, table);
  accepts_permission := int32;
  accepts_keep_count := int32
|}.

(** The service state together with the calls issued to it, oldest first. *)
Record Logged (S : Type) : Type := mkLogged {
  remote : S;
  issued : list (rpc * request)
}.
Arguments mkLogged {S} remote issued.
Arguments remote {S} l.
Arguments issued {S} l.

(** [self.stub.Method(request)]. *)
Definition stub_call {S : Type} `{Service S} (method : rpc) (req : request)
    : M (Logged S) response :=
  fun w =>
    let (r, s') := stub method req (remote (server w)) in
    let w' := mkWorld (mkLogged s' (issued (server w) ++ [(method, req)]))
                (calls w) in
    match r with
    | Responded resp => (Return resp, w')
    | TransportFailure => (Raise RpcError, w')
    end.

(** What the stub answers to a call issued in world [w], and the world the
    call leaves behind. *)
Definition answer {S : Type} `{Service S} (w : World (Logged S)) (method : rpc)
    (req : request) : reply :=
  (stub method req (remote (server w))).1.

Definition sent {S : Type} `{Service S} (w : World (Logged S)) (method : rpc)
    (req : request) : World (Logged S) :=
  mkWorld (mkLogged (stub method req (remote (server w))).2
             (issued (server w) ++ [(method, req)]))
    (calls w).

(** The constructor of a request with an integer field: the message, or
    [ValueError] when the field does not accept the value. *)
Definition build {S : Type} (accepted : bool) (req : request)
    : M (Logged S) request :=
  if accepted then ret req else raise ValueError.

(** [ManagedFiles.mkdir]. *)
Definition mkdir {S : Type} `{Service S} (self : ManagedFiles)
    (parent_uuid name : string) (user tenant : option string)
    (roles : option (list string)) (claims : option (list claim))
    : M (Logged S) (or_false string) :=
  let auth_context := _create_auth_context self user tenant roles claims in
  try_except_RpcError
    (response ← stub_call MakeDirectory
                   (MakeDirectoryRequest parent_uuid name auth_context);
     if success response then mret (Got (uid response)) else mret PyFalse)
    (mret PyFalse).

(** [ManagedFiles.entity_exists]. *)
Definition entity_exists {S : Type} `{Service S} (self : ManagedFiles)
    (entity_uid : string) (include_deleted : bool) : M (Logged S) bool :=
  try_except_RpcError
    (response ← stub_call Exists
                   (ExistsRequest entity_uid
                      (_create_auth_context self None None None None));
     mret (exists_ response))
    (mret false).

(** [ManagedFiles.touch]. *)
Definition touch {S : Type} `{Service S} (self : ManagedFiles)
    (container_uuid name : string) (user tenant : option string)
    (roles : option (list string)) (claims : option (list claim))
    : M (Logged S) (or_false string) :=
  let auth_context := _create_auth_context self user tenant roles claims in
  try_except_RpcError
    (response ← stub_call Touch (TouchRequest container_uuid name auth_context);
     if success response then mret (Got (uid response)) else mret PyFalse)
    (mret PyFalse).

(** [ManagedFiles.copy]. *)
Definition copy {S : Type} `{Service S} (self : ManagedFiles)
    (source_uid destination_uid : string) (user tenant : option string)
    (roles : option (list string)) (claims : option (list claim))
    : M (Logged S) bool :=
  let auth_context := _create_auth_context self user tenant roles claims in
  try_except_RpcError
    (response ← stub_call Copy (CopyRequest source_uid destination_uid auth_context);
     mret (success response))
    (mret false).

(** [ManagedFiles.set_metadata_value]. *)
Definition set_metadata_value {S : Type} `{Service S} (self : ManagedFiles)
    (uid key value : string) (user tenant : option string)
    (roles : option (list string)) (claims : option (list claim))
    : M (Logged S) bool :=
  let auth_context := _create_auth_context self user tenant roles claims in
  try_except_RpcError
    (response ← stub_call SetMetadata (SetMetadataRequest uid key value auth_context);
     mret (success response))
    (mret false).

(** [ManagedFiles.get_metadata_value]. *)
Definition get_metadata_value {S : Type} `{Service S} (self : ManagedFiles)
    (uid name : string) (user tenant : option string)
    (roles : option (list string)) (claims : option (list claim))
    : M (Logged S) (option string) :=
  let auth_context := _create_auth_context self user tenant roles claims in
  try_except_RpcError
    (response ← stub_call GetMetadata (GetMetadataRequest uid name auth_context);
     if success response then mret (Some (value response)) else mret None)
    (mret None).

(** [ManagedFiles.get_metadata_values]. *)
Definition get_metadata_values {S : Type} `{Service S} (self : ManagedFiles)
    (uid : string) (user tenant : option string)
    (roles : option (list string)) (claims : option (list claim))
    : M (Logged S) (gmap string string) :=
  let auth_context := _create_auth_context self user tenant roles claims in
  try_except_RpcError
    (response ← stub_call GetAllMetadata (GetAllMetadataRequest uid auth_context);
     if success response then mret (metadata response) else mret ∅)
    (mret ∅).

(** [ManagedFiles.delete_metadata_value]. *)
Definition delete_metadata_value {S : Type} `{Service S} (self : ManagedFiles)
    (uid name : string) (user tenant : option string)
    (roles : option (list string)) (claims : option (list claim))
    : M (Logged S) bool :=
  let auth_context := _create_auth_context self user tenant roles claims in
  try_except_RpcError
    (response ← stub_call DeleteMetadata (DeleteMetadataRequest uid name auth_context);
     mret (success response))
    (mret false).

(** [ManagedFiles.get_metadata_for_version]. *)
Definition get_metadata_for_version {S : Type} `{Service S} (self : ManagedFiles)
    (uid version key : string) (user tenant : option string)
    (roles : option (list string)) (claims : option (list claim))
    : M (Logged S) (option string) :=
  let auth_context := _create_auth_context self user tenant roles claims in
  try_except_RpcError
    (response ← stub_call GetMetadataForVersion
                   (GetMetadataForVersionRequest uid version key auth_context);
     if success response then mret (Some (value response)) else mret None)
    (mret None).

(** [ManagedFiles.get_all_metadata_for_version]. *)
Definition get_all_metadata_for_version {S : Type} `{Service S}
    (self : ManagedFiles) (uid version : string) (user tenant : option string)
    (roles : option (list string)) (claims : option (list claim))
    : M (Logged S) (gmap string string) :=
  let auth_context := _create_auth_context self user tenant roles claims in
  try_except_RpcError
    (response ← stub_call GetAllMetadataForVersion
                   (GetAllMetadataForVersionRequest uid version auth_context);
     if success response then mret (metadata response) else mret ∅)
    (mret ∅).

(** [ManagedFiles.grant_permission]. *)
Definition grant_permission {S : Type} `{Service S} (self : ManagedFiles)
    (resource_uid principal : string) (permission : Z)
    (user tenant : option string)
    (roles : option (list string)) (claims : option (list claim))
    : M (Logged S) bool :=
  let auth_context := _create_auth_context self user tenant roles claims in
  try_except_RpcError
    (request ← build (accepts_permission permission)
                  (GrantPermissionRequest resource_uid principal permission
                     auth_context);
     response ← stub_call GrantPermission request;
     mret (success response))
    (mret false).

(** [ManagedFiles.revoke_permission]. *)
Definition revoke_permission {S : Type} `{Service S} (self : ManagedFiles)
    (resource_uid principal : string) (permission : Z)
    (user tenant : option string)
    (roles : option (list string)) (claims : option (list claim))
    : M (Logged S) bool :=
  let auth_context := _create_auth_context self user tenant roles claims in
  try_except_RpcError
    (request ← build (accepts_permission permission)
                  (RevokePermissionRequest resource_uid principal permission
                     auth_context);
     response ← stub_call RevokePermission request;
     mret (success response))
    (mret false).

(** [ManagedFiles.check_permission]. *)
Definition check_permission {S : Type} `{Service S} (self : ManagedFiles)
    (resource_uid : string) (required_permission : Z)
    (user tenant : option string)
    (roles : option (list string)) (claims : option (list claim))
    : M (Logged S) bool :=
  let auth_context := _create_auth_context self user tenant roles claims in
  try_except_RpcError
    (request ← build (accepts_permission required_permission)
                  (CheckPermissionRequest resource_uid required_permission
                     auth_context);
     response ← stub_call CheckPermission request;
     mret (has_permission response))
    (mret false).

(** The dictionary [get_storage_usage] returns: its four keys. *)
Record storage_usage : Type := mkUsage {
  usage_total_space : Z;
  usage_used_space : Z;
  usage_available_space : Z;
  usage_usage_percentage : Q
}.

(** [ManagedFiles.get_storage_usage]. *)
Definition get_storage_usage {S : Type} `{Service S} (self : ManagedFiles)
    (user tenant : option string)
    (roles : option (list string)) (claims : option (list claim))
    : M (Logged S) (option storage_usage) :=
  let auth_context := _create_auth_context self user tenant roles claims in
  try_except_RpcError
    (response ← stub_call GetStorageUsage
                   (StorageUsageRequest auth_context
                      (py_or tenant (self_tenant self)));
     if success response
     then mret (Some {| usage_total_space := total_space response;
                        usage_used_space := used_space response;
                        usage_available_space := available_space response;
                        usage_usage_percentage := usage_percentage response |})
     else mret None)
    (mret None).

(** [ManagedFiles.purge_old_versions]. *)
Definition purge_old_versions {S : Type} `{Service S} (self : ManagedFiles)
    (file_uid : string) (keep_count : Z) (user tenant : option string)
    (roles : option (list string)) (claims : option (list claim))
    : M (Logged S) bool :=
  let auth_context := _create_auth_context self user tenant roles claims in
  try_except_RpcError
    (request ← build (accepts_keep_count keep_count)
                  (PurgeOldVersionsRequest file_uid keep_count auth_context);
     response ← stub_call PurgeOldVersions request;
     mret (success response))
    (mret false).

(** [ManagedFiles.trigger_sync]. *)
Definition trigger_sync {S : Type} `{Service S} (self : ManagedFiles)
    (user tenant : option string)
    (roles : option (list string)) (claims : option (list claim))
    : M (Logged S) bool :=
  let auth_context := _create_auth_context self user tenant roles claims in
  try_except_RpcError
    (response ← stub_call TriggerSync
                   (TriggerSyncRequest (py_or tenant (self_tenant self)) auth_context);
     mret (success response))
    (mret false).

(** [ManagedFiles.undelete_file]. *)
Definition undelete_file {S : Type} `{Service S} (self : ManagedFiles)
    (file_uid : string) (user tenant : option string)
    (roles : option (list string)) (claims : option (list claim))
    : M (Logged S) bool :=
  let auth_context := _create_auth_context self user tenant roles claims in
  try_except_RpcError
    (response ← stub_call UndeleteFile (UndeleteFileRequest file_uid auth_context);
     mret (success response))
    (mret false).

(** [ManagedFiles.restore_to_version]. *)
Definition restore_to_version {S : Type} `{Service S} (self : ManagedFiles)
    (file_uid version_timestamp : string) (user tenant : option string)
    (roles : option (list string)) (claims : option (list claim))
    : M (Logged S) (option string) :=
  let auth_context := _create_auth_context self user tenant roles claims in
  try_except_RpcError
    (response ← stub_call RestoreToVersion
                   (RestoreToVersionRequest file_uid version_timestamp auth_context);
     if success response then mret (Some (restored_version response)) else mret None)
    (mret None).

(** The operations that issue no call: placeholders kept for the signature
    of the original interface. *)
Definition path_to_uid {S : Type} (self : ManagedFiles) (path : string)
    : M (Logged S) (option string) :=
  mret None.

Definition uid_to_path {S : Type} (self : ManagedFiles) (uid : string)
    : M (Logged S) (list string) :=
  mret [].

Definition mkdir_path {S : Type} (self : ManagedFiles) (path : string)
    (user tenant : option string)
    (roles : option (list string)) (claims : option (list claim))
    : M (Logged S) (or_false string) :=
  mret PyFalse.

Definition get_parent {S : Type} (self : ManagedFiles) (uid : string)
    (user tenant : option string)
    (roles : option (list string)) (claims : option (list claim))
    : M (Logged S) string :=
  mret "".

Definition assign_entity_to_permissions {S : Type} (self : ManagedFiles)
    (entity_uid role_name : string) : M (Logged S) bool :=
  mret false.

Definition create_permission_role {S : Type} (self : ManagedFiles)
    (role_name : string) (can_read can_write can_delete can_get_revisions : bool)
    : M (Logged S) bool :=
  mret false.

Definition update_permission_role {S : Type} (self : ManagedFiles)
    (role_name : string)
    (can_read can_write can_delete can_get_revisions : option bool)
    : M (Logged S) bool :=
  mret false.

Definition delete_permission_role {S : Type} (self : ManagedFiles)
    (role_name : string) : M (Logged S) bool :=
  mret false.

Definition remove_entity_from_permissions {S : Type} (self : ManagedFiles)
    (entity_uid role_name : string) : M (Logged S) bool :=
  mret false.

Definition get_permission_roles {S : Type} (self : ManagedFiles)
    : M (Logged S) (list string) :=
  mret [].

Definition get_entity_permissions {S : Type} (self : ManagedFiles)
    (entity_uid : string) : M (Logged S) (list string) :=
  mret [].

(** *** One type for all calls *)

(** The identity overrides of a call. *)
Record overrides : Type := mkOverrides {
  ov_user : option string;
  ov_tenant : option string;
  ov_roles : option (list string);
  ov_claims : option (list claim)
}.

(** A call of one of the operations of this module, indexed by the type of
    its result. *)
Inductive operation : Type -> Type :=
  | Mkdir (parent_uuid name : string) (o : overrides) : operation (or_false string)
  | EntityExists (entity_uid : string) (include_deleted : bool) : operation bool
  | Touch_ (container_uuid name : string) (o : overrides)
      : operation (or_false string)
  | Copy_ (source_uid destination_uid : string) (o : overrides) : operation bool
  | SetMetadataValue (uid key value : string) (o : overrides) : operation bool
  | GetMetadataValue (uid name : string) (o : overrides) : operation (option string)
  | GetMetadataValues (uid : string) (o : overrides)
      : operation (gmap string string)
  | DeleteMetadataValue (uid name : string) (o : overrides) : operation bool
  | GetMetadataForVersion_ (uid version key : string) (o : overrides)
      : operation (option string)
  | GetAllMetadataForVersion_ (uid version : string) (o : overrides)
      : operation (gmap string string)
  | GrantPermission_ (resource_uid principal : string) (permission : Z)
      (o : overrides) : operation bool
  | RevokePermission_ (resource_uid principal : string) (permission : Z)
      (o : overrides) : operation bool
  | CheckPermission_ (resource_uid : string) (required_permission : Z)
      (o : overrides) : operation bool
  | GetStorageUsage_ (o : overrides) : operation (option storage_usage)
  | PurgeOldVersions_ (file_uid : string) (keep_count : Z) (o : overrides)
      : operation bool
  | TriggerSync_ (o : overrides) : operation bool
  | UndeleteFile_ (file_uid : string) (o : overrides) : operation bool
  | RestoreToVersion_ (file_uid version_timestamp : string) (o : overrides)
      : operation (option string)
  | PathToUid (path : string) : operation (option string)
  | UidToPath (uid : string) : operation (list string)
  | MkdirPath (path : string) (o : overrides) : operation (or_false string)
  | GetParent (uid : string) (o : overrides) : operation string
  | AssignEntityToPermissions (entity_uid role_name : string) : operation bool
  | CreatePermissionRole (role_name : string)
      (can_read can_write can_delete can_get_revisions : bool) : operation bool
  | UpdatePermissionRole (role_name : string)
      (can_read can_write can_delete can_get_revisions : option bool)
      : operation bool
  | DeletePermissionRole (role_name : string) : operation bool
  | RemoveEntityFromPermissions (entity_uid role_name : string) : operation bool
  | GetPermissionRoles : operation (list string)
  | GetEntityPermissions (entity_uid : string) : operation (list string).

(** Running a call on an instance. *)
Definition perform {S : Type} `{Service S} {A : Type} (self : ManagedFiles)
    (op : operation A) : M (Logged S) A :=
  match op with
  | Mkdir p n o =>
      mkdir self p n (ov_user o) (ov_tenant o) (ov_roles o) (ov_claims o)
  | EntityExists u d => entity_exists self u d
  | Touch_ c n o =>
      touch self c n (ov_user o) (ov_tenant o) (ov_roles o) (ov_claims o)
  | Copy_ s d o =>
      copy self s d (ov_user o) (ov_tenant o) (ov_roles o) (ov_claims o)
  | SetMetadataValue u k v o =>
      set_metadata_value self u k v
        (ov_user o) (ov_tenant o) (ov_roles o) (ov_claims o)
  | GetMetadataValue u n o =>
      get_metadata_value self u n
        (ov_user o) (ov_tenant o) (ov_roles o) (ov_claims o)
  | GetMetadataValues u o =>
      get_metadata_values self u
        (ov_user o) (ov_tenant o) (ov_roles o) (ov_claims o)
  | DeleteMetadataValue u n o =>
      delete_metadata_value self u n
        (ov_user o) (ov_tenant o) (ov_roles o) (ov_claims o)
  | GetMetadataForVersion_ u v k o =>
      get_metadata_for_version self u v k
        (ov_user o) (ov_tenant o) (ov_roles o) (ov_claims o)
  | GetAllMetadataForVersion_ u v o =>
      get_all_metadata_for_version self u v
        (ov_user o) (ov_tenant o) (ov_roles o) (ov_claims o)
  | GrantPermission_ r p n o =>
      grant_permission self r p n
        (ov_user o) (ov_tenant o) (ov_roles o) (ov_claims o)
  | RevokePermission_ r p n o =>
      revoke_permission self r p n
        (ov_user o) (ov_tenant o) (ov_roles o) (ov_claims o)
  | CheckPermission_ r n o =>
      check_permission self r n
        (ov_user o) (ov_tenant o) (ov_roles o) (ov_claims o)
  | GetStorageUsage_ o =>
      get_storage_usage self (ov_user o) (ov_tenant o) (ov_roles o) (ov_claims o)
  | PurgeOldVersions_ f k o =>
      purge_old_versions self f k
        (ov_user o) (ov_tenant o) (ov_roles o) (ov_claims o)
  | TriggerSync_ o =>
      trigger_sync self (ov_user o) (ov_tenant o) (ov_roles o) (ov_claims o)
  | UndeleteFile_ f o =>
      undelete_file self f (ov_user o) (ov_tenant o) (ov_roles o) (ov_claims o)
  | RestoreToVersion_ f v o =>
      restore_to_version self f v
        (ov_user o) (ov_tenant o) (ov_roles o) (ov_claims o)
  | PathToUid p => path_to_uid self p
  | UidToPath u => uid_to_path self u
  | MkdirPath p o =>
      mkdir_path self p (ov_user o) (ov_tenant o) (ov_roles o) (ov_claims o)
  | GetParent u o =>
      get_parent self u (ov_user o) (ov_tenant o) (ov_roles o) (ov_claims o)
  | AssignEntityToPermissions e r => assign_entity_to_permissions self e r
  | CreatePermissionRole n r w d g => create_permission_role self n r w d g
  | UpdatePermissionRole n r w d g => update_permission_role self n r w d g
  | DeletePermissionRole n => delete_permission_role self n
  | RemoveEntityFromPermissions e r => remove_entity_from_permissions self e r
  | GetPermissionRoles => get_permission_roles self
  | GetEntityPermissions e => get_entity_permissions self e
  end.

(** The value by which a call reports failure: [False], [None], an empty
    list or dictionary, an empty string. *)
Definition failure_value {A : Type} (op : operation A) : A :=
  match op in operation T return T with
  | Mkdir _ _ _ | Touch_ _ _ _ | MkdirPath _ _ => PyFalse
  | GetMetadataValue _ _ _ | GetMetadataForVersion_ _ _ _ _
  | RestoreToVersion_ _ _ _ | PathToUid _ => None
  | GetStorageUsage_ _ => None
  | GetMetadataValues _ _ | GetAllMetadataForVersion_ _ _ _ => ∅
  | UidToPath _ | GetPermissionRoles | GetEntityPermissions _ => []
  | GetParent _ _ => ""
  | _ => false
  end.

(** The method a call goes to; [None] for the placeholders. *)
Definition method_of {A : Type} (op : operation A) : option rpc :=
  match op with
  | Mkdir _ _ _ => Some MakeDirectory
  | EntityExists _ _ => Some Exists
  | Touch_ _ _ _ => Some Touch
  | Copy_ _ _ _ => Some Copy
  | SetMetadataValue _ _ _ _ => Some SetMetadata
  | GetMetadataValue _ _ _ => Some GetMetadata
  | GetMetadataValues _ _ => Some GetAllMetadata
  | DeleteMetadataValue _ _ _ => Some DeleteMetadata
  | GetMetadataForVersion_ _ _ _ _ => Some GetMetadataForVersion
  | GetAllMetadataForVersion_ _ _ _ => Some GetAllMetadataForVersion
  | GrantPermission_ _ _ _ _ => Some GrantPermission
  | RevokePermission_ _ _ _ _ => Some RevokePermission
  | CheckPermission_ _ _ _ => Some CheckPermission
  | GetStorageUsage_ _ => Some GetStorageUsage
  | PurgeOldVersions_ _ _ _ => Some PurgeOldVersions
  | TriggerSync_ _ => Some TriggerSync
  | UndeleteFile_ _ _ => Some UndeleteFile
  | RestoreToVersion_ _ _ _ => Some RestoreToVersion
  | _ => None
  end.

(** The integer arguments of a call are values its request accepts. *)
Definition accepted {S : Type} `{Service S} {A : Type} (op : operation A) : bool :=
  match op with
  | GrantPermission_ _ _ permission _ | RevokePermission_ _ _ permission _ =>
      accepts_permission permission
  | CheckPermission_ _ required_permission _ =>
      accepts_permission required_permission
  | PurgeOldVersions_ _ keep_count _ => accepts_keep_count keep_count
  | _ => true
  end.

(** The calls that do not look at the success flag of the response. *)
Definition ignores_success {A : Type} (op : operation A) : bool :=
  match op with
  | EntityExists _ _ | CheckPermission_ _ _ _ => true
  | _ => false
  end.

(** The context a call sends: built from its overrides, except for
    [entity_exists], which has none. *)
Definition context_of {A : Type} (self : ManagedFiles) (op : operation A)
    : AuthenticationContext :=
  match op with
  | Mkdir _ _ o | Touch_ _ _ o | Copy_ _ _ o | SetMetadataValue _ _ _ o
  | GetMetadataValue _ _ o | GetMetadataValues _ o | DeleteMetadataValue _ _ o
  | GetMetadataForVersion_ _ _ _ o | GetAllMetadataForVersion_ _ _ o
  | GrantPermission_ _ _ _ o | RevokePermission_ _ _ _ o
  | CheckPermission_ _ _ o | GetStorageUsage_ o | PurgeOldVersions_ _ _ o
  | TriggerSync_ o | UndeleteFile_ _ o | RestoreToVersion_ _ _ o
  | MkdirPath _ o | GetParent _ o =>
      _create_auth_context self (ov_user o) (ov_tenant o) (ov_roles o) (ov_claims o)
  | _ => _create_auth_context self None None None None
  end.

(** The context a request carries. *)
Definition auth_of (req : request) : AuthenticationContext :=
  match req with
  | MakeDirectoryRequest _ _ a | ExistsRequest _ a | TouchRequest _ _ a
  | CopyRequest _ _ a | SetMetadataRequest _ _ _ a | GetMetadataRequest _ _ a
  | GetAllMetadataRequest _ a | DeleteMetadataRequest _ _ a
  | GetMetadataForVersionRequest _ _ _ a | GetAllMetadataForVersionRequest _ _ a
  | GrantPermissionRequest _ _ _ a | RevokePermissionRequest _ _ _ a
  | CheckPermissionRequest _ _ a | StorageUsageRequest a _
  | PurgeOldVersionsRequest _ _ a | TriggerSyncRequest _ a
  | UndeleteFileRequest _ a | RestoreToVersionRequest _ _ a => a
  end.

(** A service that cannot be reached, and one that refuses every call. *)
Definition unreachable (method : rpc) (req : request) : reply :=
  TransportFailure.

Definition refusing (method : rpc) (req : request) : reply :=
  Responded {| success := false; uid := ""; exists_ := true; value := "";
               metadata := ∅; has_permission := true; total_space := 0;
               used_space := 0; available_space := 0; usage_percentage := 0%Q;
               restored_version := "" |}.

End Further.

(** ** Claims normalisation *)

Section ClaimsNormalisation.

Implicit Types (l : list claim) (m : gmap string string).

Lemma claims_step_well_shaped m c e :
  claim_entries_spec c = Some e -> claims_step m c = e ∪ m.
Proof.
  destruct c as [s|d|t| |n]; simpl; try discriminate.
  - intros [= <-]. by rewrite insert_union_singleton_l.
  - by intros [= <-].
  - destruct t as [|k [|v [|x t]]]; try discriminate.
    intros [= <-]. by rewrite insert_union_singleton_l.
Qed.

Lemma claims_step_ill_shaped m c :
  well_shaped c = false -> claims_step m c = m.
Proof.
  destruct c as [s|d|t| |n]; simpl; try discriminate; try done.
  by destruct t as [|k [|v [|x t]]].
Qed.

Lemma well_shaped_entries c :
  well_shaped c = true <-> is_Some (claim_entries_spec c).
Proof.
  destruct c as [s|d|t| |n]; simpl; split; intros H;
    try done; try (by eexists); try (by destruct H).
  - destruct t as [|k [|v [|x t]]]; try discriminate. by eexists.
  - destruct t as [|k [|v [|x t]]]; try done; by destruct H.
Qed.

(** The loop started from an arbitrary accumulator. *)
Lemma claims_loop_spec_acc l : forall m u,
  normalize_claims_spec l = Some u -> claims_loop l m = u ∪ m.
Proof.
  induction l as [|c rest IH]; intros m u; simpl.
  - intros [= <-]. by rewrite (left_id_L ∅ (∪)).
  - destruct (claim_entries_spec c) as [e|] eqn:He; [|discriminate].
    destruct (normalize_claims_spec rest) as [r|] eqn:Hr; [|discriminate].
    intros [= <-].
    rewrite (IH _ r eq_refl), (claims_step_well_shaped _ _ _ He).
    by rewrite (assoc_L (∪)).
Qed.

Lemma normalize_claims_spec_defined l :
  Forall (fun c => well_shaped c = true) l ->
  is_Some (normalize_claims_spec l).
Proof.
  induction 1 as [|c rest Hc _ IH]; simpl; [by eexists|].
  apply well_shaped_entries in Hc as [e ->].
  destruct IH as [r ->]. by eexists.
Qed.

Lemma claims_loop_filter l : forall m,
  claims_loop l m = claims_loop (filter (fun c => well_shaped c = true) l) m.
Proof.
  induction l as [|c rest IH]; intros m; [done|].
  rewrite filter_cons. simpl. destruct (decide (well_shaped c = true)) as [Hc|Hc].
  - simpl. apply IH.
  - apply not_true_is_false in Hc.
    rewrite (claims_step_ill_shaped _ _ Hc). apply IH.
Qed.

Lemma auth_claims_loop self user tenant roles l :
  auth_claims (_create_auth_context self user tenant roles (Some l))
  = claims_loop l ∅.
Proof. by destruct l. Qed.

End ClaimsNormalisation.

(** ** The authentication context *)

Section AuthContext.

Implicit Types (self : ManagedFiles) (l : list claim).

Lemma normalize_claims_spec_lookup l : forall u k,
  normalize_claims_spec l = Some u -> u !! k = last_binding l k.
Proof.
  induction l as [|c rest IH]; intros u k; simpl.
  - by intros [= <-].
  - destruct (claim_entries_spec c) as [e|]; [|discriminate].
    destruct (normalize_claims_spec rest) as [r|]; [|discriminate].
    intros [= <-]. rewrite lookup_union, <- (IH r k eq_refl). simpl.
    by destruct (r !! k), (e !! k).
Qed.

(** C1.  For a claims list made of strings, mappings and two-element
    tuples, the claims map of the context [_create_auth_context] builds is
    the union of the entries the elements contribute (a string maps to
    itself, a mapping gives its entries, a pair maps key to value), later
    positions overriding earlier ones: every key carries the value given
    by the last element that mentions it. *)
Theorem create_auth_context_claims_union self user tenant roles l :
  Forall (fun c => well_shaped c = true) l ->
  normalize_claims_spec l
    = Some (auth_claims (_create_auth_context self user tenant roles (Some l)))
  /\ forall k,
       auth_claims (_create_auth_context self user tenant roles (Some l)) !! k
       = last_binding l k.
Proof.
  intros Hl. rewrite auth_claims_loop.
  destruct (normalize_claims_spec_defined l Hl) as [u Hu].
  rewrite (claims_loop_spec_acc l ∅ u Hu), (right_id_L ∅ (∪)).
  split; [done|]. intros k. by apply normalize_claims_spec_lookup.
Qed.

(** The example of the specification:
    [["a", {"k": "v"}, ("x", "y")]] gives [{"a": "a", "k": "v", "x": "y"}]. *)
Lemma create_auth_context_claims_union_witness :
  auth_claims
    (_create_auth_context (init None "alice" "" None) None None None
       (Some [ClaimStr "a"; ClaimDict {[ "k" := "v" ]}; ClaimTuple ["x"; "y"]]))
  = {[ "a" := "a"; "k" := "v"; "x" := "y" ]}.
Proof.
  pose proof
    (create_auth_context_claims_union (init None "alice" "" None) None None None
       [ClaimStr "a"; ClaimDict {[ "k" := "v" ]}; ClaimTuple ["x"; "y"]]) as H.
  destruct H as [H _].
  - repeat constructor.
  - apply (inj Some). rewrite <- H. vm_compute. reflexivity.
Defined.

(** C2, as the specification states it, fails for the user field: an
    explicitly empty [user] override resolves to the instance default. *)
Lemma create_auth_context_empty_user_falls_back :
  let self := init (Some ["user"]) "alice" "t" None in
  auth_user (_create_auth_context self (Some "") None None None) = "alice"
  /\ auth_user (_create_auth_context self (Some "") None None None) <> "".
Proof. split; [reflexivity | discriminate]. Qed.

(** C2, amended.  An omitted override resolves to the instance default.  A
    supplied [tenant], [roles] or [claims] override is used as it is, also
    when it is empty (the claims map is then the normalisation of the
    supplied list); a supplied [user] override is used when it is not the
    empty string, and the empty string resolves to the instance default. *)
Theorem create_auth_context_resolution self user tenant roles claims :
  let ctx := _create_auth_context self user tenant roles claims in
  (user = None \/ user = Some "" -> auth_user ctx = self_user self)
  /\ (forall u, user = Some u -> u <> "" -> auth_user ctx = u)
  /\ (tenant = None -> auth_tenant ctx = self_tenant self)
  /\ (forall t, tenant = Some t -> auth_tenant ctx = t)
  /\ (roles = None -> auth_roles ctx = self_roles self)
  /\ (forall r, roles = Some r -> auth_roles ctx = r)
  /\ (claims = None -> auth_claims ctx = claims_loop (self_claims self) ∅)
  /\ (forall l, claims = Some l -> auth_claims ctx = claims_loop l ∅).
Proof.
  simpl. repeat split.
  - by intros [-> | ->].
  - intros u -> Hu. simpl. destruct (String.eqb_spec u ""); congruence.
  - by intros ->.
  - by intros t ->.
  - by intros ->.
  - by intros r ->.
  - intros ->. simpl. by destruct (self_claims self).
  - intros l ->. simpl. by destruct l.
Qed.

(** The example of the specification: with default roles [["user"]], the
    override [roles=[]] resolves to [[]]; and an empty claims override
    gives the empty claims map. *)
Lemma create_auth_context_resolution_witness :
  let self := init (Some ["user"]) "alice" "t" (Some [ClaimStr "read"]) in
  let ctx := _create_auth_context self (Some "bob") (Some "") (Some []) (Some []) in
  auth_user ctx = "bob" /\ auth_tenant ctx = "" /\ auth_roles ctx = []
  /\ auth_claims ctx = ∅.
Proof.
  pose proof
    (create_auth_context_resolution
       (init (Some ["user"]) "alice" "t" (Some [ClaimStr "read"]))
       (Some "bob") (Some "") (Some []) (Some [])) as H.
  cbv zeta in H. destruct H as (_ & Hu & _ & Ht & _ & Hr & _ & Hc).
  refine (conj _ (conj _ (conj _ _))).
  - apply Hu; [reflexivity | discriminate].
  - apply Ht; reflexivity.
  - apply Hr; reflexivity.
  - exact (Hc [] eq_refl).
Defined.

(** C3, as the specification states it, fails: a claims list with an
    element of another shape (here an [int] and a three-element tuple) is
    the condition [InvalidClaimShape] for the specification, while
    [_create_auth_context] returns a context and leaves the element out. *)
Lemma create_auth_context_ignores_other_shapes :
  let l := [ClaimStr "a"; ClaimInt 7; ClaimTuple ["x"; "y"; "z"]] in
  normalize_claims_spec l = None
  /\ auth_claims
       (_create_auth_context (init None "alice" "" None) None None None (Some l))
     = {[ "a" := "a" ]}.
Proof. split; vm_compute; reflexivity. Qed.

(** C3, amended.  [_create_auth_context] has no failure path: an element
    that is neither a string, nor a mapping, nor a two-element tuple is
    skipped, so the context is the one built from the list without such
    elements. *)
Theorem create_auth_context_skips_other_shapes self user tenant roles l :
  _create_auth_context self user tenant roles (Some l)
  = _create_auth_context self user tenant roles
      (Some (filter (fun c => well_shaped c = true) l)).
Proof.
  pose proof (auth_claims_loop self user tenant roles l) as H1.
  pose proof (auth_claims_loop self user tenant roles
                (filter (fun c => well_shaped c = true) l)) as H2.
  rewrite claims_loop_filter, <- H2 in H1.
  destruct (_create_auth_context self user tenant roles (Some l)) eqn:E1.
  destruct (_create_auth_context self user tenant roles
              (Some (filter (fun c => well_shaped c = true) l))) eqn:E2.
  unfold _create_auth_context in E1, E2. simpl in *.
  injection E1 as <- <- <- _. injection E2 as <- <- <- _. by subst.
Qed.

(** C10.  [set_user_information] updates a field only when its argument is
    truthy: [None], the empty string and the empty list leave the field as
    it was, a non-empty argument replaces it, and the tenant is never
    touched. *)
Theorem set_user_information_truthy_only self user_name roles claims :
  let self' := set_user_information self user_name roles claims in
  (user_name = None \/ user_name = Some "" -> self_user self' = self_user self)
  /\ (roles = None \/ roles = Some [] -> self_roles self' = self_roles self)
  /\ (claims = None \/ claims = Some [] -> self_claims self' = self_claims self)
  /\ (forall u, user_name = Some u -> u <> "" -> self_user self' = u)
  /\ (forall r, roles = Some r -> r <> [] -> self_roles self' = r)
  /\ (forall l, claims = Some l -> l <> [] -> self_claims self' = l)
  /\ self_tenant self' = self_tenant self.
Proof.
  unfold set_user_information. repeat split.
  - intros [-> | ->]; simpl; by destruct (truthy_list roles), (truthy_list claims).
  - intros [-> | ->]; simpl; by destruct (truthy_str user_name), (truthy_list claims).
  - intros [-> | ->]; simpl; by destruct (truthy_str user_name), (truthy_list roles).
  - intros u -> Hu. simpl. destruct (String.eqb_spec u ""); [done|]. simpl.
    by destruct (truthy_list roles), (truthy_list claims).
  - intros r -> Hr. destruct r; [done|]. simpl.
    by destruct (truthy_str user_name), (truthy_list claims).
  - intros l -> Hl. destruct l; [done|]. simpl.
    by destruct (truthy_str user_name), (truthy_list roles).
  - by destruct (truthy_str user_name), (truthy_list roles), (truthy_list claims).
Qed.

Lemma set_user_information_truthy_only_witness :
  let self := init (Some ["user"]) "alice" "t" (Some [ClaimStr "read"]) in
  let same := set_user_information self (Some "") (Some []) (Some []) in
  self_user same = "alice" /\ self_roles same = ["user"]
  /\ self_claims same = [ClaimStr "read"]
  /\ self_user (set_user_information self (Some "bob") None None) = "bob".
Proof.
  pose proof
    (set_user_information_truthy_only
       (init (Some ["user"]) "alice" "t" (Some [ClaimStr "read"]))
       (Some "") (Some []) (Some [])) as H.
  pose proof
    (set_user_information_truthy_only
       (init (Some ["user"]) "alice" "t" (Some [ClaimStr "read"]))
       (Some "bob") None None) as H'.
  cbv zeta in H, H'. destruct H as (Hu & Hr & Hc & _).
  destruct H' as (_ & _ & _ & Hu' & _).
  refine (conj _ (conj _ (conj _ _))).
  - apply Hu. right; reflexivity.
  - apply Hr. right; reflexivity.
  - apply Hc. right; reflexivity.
  - apply Hu'; [reflexivity | discriminate].
Defined.

End AuthContext.

(** ** Running the operations *)

Section Remote.

Context {S : Type} `{FileService S}.
Implicit Types (self : ManagedFiles) (w : World S) (show_deleted : bool).

Lemma stub_call_run method req w :
  stub_call method req w
  = (match answer w method req with
     | Responded r => Return r
     | TransportFailure => Raise RpcError
     end, sent w method req).
Proof.
  unfold stub_call, answer, sent.
  by destruct (stub method req (server w)) as [[r|] s'].
Qed.

(** A guarded stub call: the handler runs exactly when the transport fails
    or the continuation raises [RpcError]. *)
Lemma try_stub_call {A : Type} method req (k : response -> M S A) (h : M S A) w :
  try_except_RpcError (stub_call method req ≫= k) h w
  = match answer w method req with
    | Responded r => try_except_RpcError (k r) h (sent w method req)
    | TransportFailure => h (sent w method req)
    end.
Proof.
  unfold try_except_RpcError, mbind, M_bind, bind.
  rewrite stub_call_run. by destruct (answer w method req).
Qed.

Lemma try_ret {A : Type} (a : A) (h : M S A) w :
  try_except_RpcError (mret a) h w = (Return a, w).
Proof. reflexivity. Qed.

Lemma bind_run {A B : Type} (m : M S A) (k : A -> M S B) w a w' :
  m w = (Return a, w') -> (m ≫= k) w = k a w'.
Proof. unfold mbind, M_bind, bind. by intros ->. Qed.

Lemma revisions_run self uid user tenant roles claims w :
  let auth_context := _create_auth_context self user tenant roles claims in
  let req := ListVersionsRequest uid auth_context in
  revisions self uid user tenant roles claims w
  = (Return
       match answer w ListVersions req with
       | Responded r =>
           if success r
           then (fun v => mkRevision v
                            (if has_dash uid
                             then List.last (split_dash uid) EmptyString
                             else uid)
                            (auth_user auth_context)) <$> versions r
           else []
       | TransportFailure => []
       end, sent w ListVersions req).
Proof.
  simpl. unfold revisions. rewrite try_stub_call.
  destruct (answer _ _ _) as [r|]; [|done]. by destruct (success r).
Qed.

Lemma get_file_mtime_run self uid user tenant roles claims w :
  let req := StatRequest uid (_create_auth_context self user tenant roles claims) in
  get_file_mtime self uid user tenant roles claims w
  = (match answer w Stat req with
     | Responded r =>
         if success r
         then match fromtimestamp_error (info_modified_at (info r)) with
              | None => Return (Some (at_timestamp (info_modified_at (info r))))
              | Some err => Raise (timestamp_exn err)
              end
         else Return None
     | TransportFailure => Return None
     end, sent w Stat req).
Proof.
  simpl. unfold get_file_mtime. rewrite try_stub_call.
  destruct (answer _ _ _) as [r|]; [|done]. destruct (success r); [|done].
  unfold try_except_RpcError, mbind, M_bind, bind, fromtimestamp.
  by destruct (fromtimestamp_error _) as [[]|].
Qed.

Lemma file_name_run self uid user tenant roles claims w :
  let req := StatRequest uid (_create_auth_context self user tenant roles claims) in
  file_name self uid user tenant roles claims w
  = (Return
       match answer w Stat req with
       | Responded r => if success r then [info_name (info r)] else []
       | TransportFailure => []
       end, sent w Stat req).
Proof.
  simpl. unfold file_name. rewrite try_stub_call.
  destruct (answer _ _ _) as [r|]; [|done]. by destruct (success r).
Qed.

Lemma rename_run self uid new_name user tenant roles claims w :
  let req := RenameRequest uid new_name
               (_create_auth_context self user tenant roles claims) in
  rename self uid new_name user tenant roles claims w
  = (Return
       match answer w Rename req with
       | Responded r => success r
       | TransportFailure => false
       end, sent w Rename req).
Proof.
  simpl. unfold rename. rewrite try_stub_call.
  by destruct (answer _ _ _) as [r|].
Qed.

Lemma timestamp_exn_not_RpcError err : timestamp_exn err <> RpcError.
Proof. by destruct err. Qed.

(** The loop of [dir] raises nothing but the error of a timestamp
    conversion: the per-entry calls swallow their own failures. *)
Lemma dir_item_raises self auth_context entry w e w' :
  dir_item self auth_context entry w = (Raise e, w') ->
  exists err, e = timestamp_exn err.
Proof.
  unfold dir_item. destruct (entry_type entry =? REGULAR_FILE)%Z; [|done].
  unfold mbind, M_bind, bind. rewrite revisions_run.
  destruct (match answer _ _ _ with Responded _ => _ | TransportFailure => _ end)
    as [|latest revs]; [done|].
  rewrite get_file_mtime_run. cbv zeta.
  destruct (answer _ Stat _) as [r|]; [|done]. destruct (success r); [|done].
  destruct (fromtimestamp_error _) as [err|]; [|done].
  intros [= <- _]. by exists err.
Qed.

Lemma dir_loop_raises self auth_context es : forall result w e w',
  dir_loop self auth_context es result w = (Raise e, w') ->
  exists err, e = timestamp_exn err.
Proof.
  induction es as [|entry rest IH]; intros result w e w'; simpl; [done|].
  unfold mbind, M_bind, bind.
  destruct (dir_item self auth_context entry w) as [[item|e1] w1] eqn:Hitem.
  - apply IH.
  - intros [= <- _]. by eapply dir_item_raises.
Qed.

Lemma remove_run self uid user tenant roles claims w :
  let auth_context := _create_auth_context self user tenant roles claims in
  let w1 := sent w Stat (StatRequest uid auth_context) in
  remove self uid user tenant roles claims w
  = match answer w Stat (StatRequest uid auth_context) with
    | Responded info_resp =>
        let (method, req) :=
          if success info_resp && (info_type (info info_resp) =? DIRECTORY)%Z
          then (RemoveDirectory, RemoveDirectoryRequest uid auth_context)
          else (RemoveFile, RemoveFileRequest uid auth_context) in
        (Return match answer w1 method req with
                | Responded r => success r
                | TransportFailure => false
                end, sent w1 method req)
    | TransportFailure => (Return false, w1)
    end.
Proof.
  simpl. unfold remove. rewrite try_stub_call.
  destruct (answer w Stat _) as [info_resp|]; [|done].
  destruct (success info_resp && _); rewrite try_stub_call;
    by destruct (answer _ _ _).
Qed.

Lemma move_run self source_uid destination_uid new_name user tenant roles claims w :
  let auth_context := _create_auth_context self user tenant roles claims in
  let req := MoveRequest source_uid destination_uid auth_context in
  move self source_uid destination_uid new_name user tenant roles claims w
  = match answer w Move req with
    | Responded r =>
        if success r && truthy_str new_name
        then rename self source_uid (if_not_None new_name "")
               user tenant roles claims (sent w Move req)
        else (Return (success r), sent w Move req)
    | TransportFailure => (Return false, sent w Move req)
    end.
Proof.
  simpl. unfold move. rewrite try_stub_call.
  destruct (answer w Move _) as [r|]; [|done].
  destruct (success r && truthy_str new_name); [|done].
  unfold try_except_RpcError, mbind, M_bind, bind.
  by rewrite rename_run.
Qed.

(** C6.  [remove] first issues a [Stat] call.  When it succeeds and reports
    a directory, the one further call is [RemoveDirectory]; when it succeeds
    and reports a regular file, the one further call is [RemoveFile]; in
    both cases the result is the success flag of the removal ([False] when
    its transport fails).  When the transport of the [Stat] call fails,
    [remove] returns [False] and issues no further call. *)
Theorem remove_dispatch self uid user tenant roles claims w :
  let auth_context := _create_auth_context self user tenant roles claims in
  let stat := StatRequest uid auth_context in
  let run := remove self uid user tenant roles claims w in
  let removal_result method req :=
    match answer (sent w Stat stat) method req with
    | Responded r => success r
    | TransportFailure => false
    end in
  (forall info_resp,
     answer w Stat stat = Responded info_resp ->
     success info_resp = true ->
     info_type (info info_resp) = DIRECTORY ->
     calls run.2
     = calls w ++ [(Stat, stat);
                   (RemoveDirectory, RemoveDirectoryRequest uid auth_context)]
     /\ run.1 = Return (removal_result RemoveDirectory
                          (RemoveDirectoryRequest uid auth_context)))
  /\ (forall info_resp,
       answer w Stat stat = Responded info_resp ->
       success info_resp = true ->
       info_type (info info_resp) = REGULAR_FILE ->
       calls run.2
       = calls w ++ [(Stat, stat); (RemoveFile, RemoveFileRequest uid auth_context)]
       /\ run.1 = Return (removal_result RemoveFile
                            (RemoveFileRequest uid auth_context)))
  /\ (answer w Stat stat = TransportFailure ->
      run.1 = Return false /\ calls run.2 = calls w ++ [(Stat, stat)]).
Proof.
  cbv zeta. rewrite remove_run. refine (conj _ (conj _ _)).
  - intros info_resp -> -> ->. simpl. by rewrite <- (assoc_L (++)).
  - intros info_resp -> -> ->. simpl. by rewrite <- (assoc_L (++)).
  - by intros ->.
Qed.

(** C9.  When the [Stat] call of [remove] completes but its response
    signals failure, [remove] does not stop: it issues the [RemoveFile] call
    and returns the success flag of that call ([False] when its transport
    fails). *)
Theorem remove_after_failed_stat self uid user tenant roles claims w info_resp :
  let auth_context := _create_auth_context self user tenant roles claims in
  let stat := StatRequest uid auth_context in
  let run := remove self uid user tenant roles claims w in
  answer w Stat stat = Responded info_resp ->
  success info_resp = false ->
  calls run.2
  = calls w ++ [(Stat, stat); (RemoveFile, RemoveFileRequest uid auth_context)]
  /\ run.1
     = Return match answer (sent w Stat stat) RemoveFile
                      (RemoveFileRequest uid auth_context) with
              | Responded r => success r
              | TransportFailure => false
              end.
Proof.
  cbv zeta. rewrite remove_run. intros -> ->. simpl.
  by rewrite <- (assoc_L (++)).
Qed.

(** C5.  [move] issues the [Move] call.  When that call fails, at the
    transport or in its response, no [Rename] call is issued and the result
    is [False].  When it succeeds and a new name was given, [move] runs
    [rename] on the moved identifier and returns what [rename] returns:
    one [Rename] call, whose success flag is the result.  When it
    succeeds and no new name was given, the result is the success flag of
    the move. *)
Theorem move_then_rename self source_uid destination_uid new_name
    user tenant roles claims w :
  let auth_context := _create_auth_context self user tenant roles claims in
  let mv := MoveRequest source_uid destination_uid auth_context in
  let run :=
    move self source_uid destination_uid new_name user tenant roles claims w in
  (answer w Move mv = TransportFailure
   \/ (exists r, answer w Move mv = Responded r /\ success r = false) ->
   run = (Return false, sent w Move mv))
  /\ (forall r n,
       answer w Move mv = Responded r -> success r = true ->
       new_name = Some n -> n <> "" ->
       run = rename self source_uid n user tenant roles claims (sent w Move mv)
       /\ calls run.2
          = calls w ++ [(Move, mv); (Rename, RenameRequest source_uid n auth_context)]
       /\ run.1
          = Return match answer (sent w Move mv) Rename
                           (RenameRequest source_uid n auth_context) with
                   | Responded r' => success r'
                   | TransportFailure => false
                   end)
  /\ (forall r,
       answer w Move mv = Responded r -> success r = true ->
       truthy_str new_name = false ->
       run = (Return (success r), sent w Move mv)).
Proof.
  cbv zeta. rewrite move_run. refine (conj _ (conj _ _)).
  - intros [-> | (r & -> & Hr)]; [done|]. by rewrite Hr.
  - intros r n -> -> -> Hn. simpl.
    destruct (String.eqb_spec n ""); [done|]. simpl.
    rewrite rename_run. simpl. by rewrite <- (assoc_L (++)).
  - intros r -> -> ->. done.
Qed.


Lemma dir_run self uid show_deleted user tenant roles claims w :
  let auth_context := _create_auth_context self user tenant roles claims in
  let method := if show_deleted then ListDirectoryWithDeleted else ListDirectory in
  let req := if show_deleted
             then ListDirectoryWithDeletedRequest uid auth_context
             else ListDirectoryRequest uid auth_context in
  dir self uid show_deleted user tenant roles claims w
  = match answer w method req with
    | Responded r =>
        if success r
        then match dir_loop self auth_context (entries r) [] (sent w method req) with
             | (Return result, w') => (Return (Got result), w')
             | (Raise e, w') => (Raise e, w')
             end
        else (Return PyFalse, sent w method req)
    | TransportFailure => (Return PyFalse, sent w method req)
    end.
Proof.
  simpl. unfold dir.
  assert (forall method req,
    try_except_RpcError
      (stub_call method req ≫= (fun response =>
         if negb (success response) then mret PyFalse
         else dir_loop self (_create_auth_context self user tenant roles claims)
                (entries response) [] ≫= (fun result => mret (Got result))))
      (mret PyFalse) w
    = match answer w method req with
      | Responded r =>
          if success r
          then match dir_loop self (_create_auth_context self user tenant roles claims)
                       (entries r) [] (sent w method req) with
               | (Return result, w') => (Return (Got result), w')
               | (Raise e, w') => (Raise e, w')
               end
          else (Return PyFalse, sent w method req)
      | TransportFailure => (Return PyFalse, sent w method req)
      end) as Hrun.
  { intros method req. rewrite try_stub_call.
    destruct (answer w method req) as [r|]; [|done].
    destruct (success r); [|done]. simpl.
    unfold try_except_RpcError, mbind, M_bind, bind.
    destruct (dir_loop self (_create_auth_context self user tenant roles claims)
                (entries r) [] (sent w method req)) as [[items|e] w'] eqn:Hloop;
      [done|].
    destruct (dir_loop_raises _ _ _ _ _ _ _ Hloop) as [[] ->]; done. }
  destruct show_deleted; apply Hrun.
Qed.

(** C7, amended.  When the remote call fails, at the transport or in its
    response, [revisions] and [file_name] return the empty list and [dir]
    returns [False], so none of the three raises then; [revisions] and
    [file_name] raise on no input at all. *)
Theorem listing_failure_values self uid show_deleted user tenant roles claims w :
  let auth_context := _create_auth_context self user tenant roles claims in
  let failed method req :=
    answer w method req = TransportFailure
    \/ exists r, answer w method req = Responded r /\ success r = false in
  (failed ListVersions (ListVersionsRequest uid auth_context) ->
   (revisions self uid user tenant roles claims w).1 = Return [])
  /\ (failed Stat (StatRequest uid auth_context) ->
      (file_name self uid user tenant roles claims w).1 = Return [])
  /\ (failed (if show_deleted then ListDirectoryWithDeleted else ListDirectory)
             (if show_deleted
              then ListDirectoryWithDeletedRequest uid auth_context
              else ListDirectoryRequest uid auth_context) ->
      (dir self uid show_deleted user tenant roles claims w).1 = Return PyFalse)
  /\ (forall e,
        (revisions self uid user tenant roles claims w).1 <> Raise e
        /\ (file_name self uid user tenant roles claims w).1 <> Raise e).
Proof.
  cbv zeta. refine (conj _ (conj _ (conj _ _))).
  - rewrite revisions_run. simpl.
    intros [-> | (r & -> & Hr)]; [done|]. by rewrite Hr.
  - rewrite file_name_run. simpl.
    intros [-> | (r & -> & Hr)]; [done|]. by rewrite Hr.
  - rewrite dir_run. cbv zeta.
    intros [-> | (r & -> & Hr)]; [done|]. by rewrite Hr.
  - intros e. by rewrite revisions_run, file_name_run.
Qed.

Lemma py_index_in_range {A : Type} (l : list A) (i : Z) w :
  (0 <= i < Z.of_nat (length l))%Z ->
  exists x, l !! Z.to_nat i = Some x /\ py_index l i w = (Return x, w).
Proof.
  intros Hi. unfold py_index.
  destruct (Z.ltb_spec i 0) as [?|_]; [lia|].
  destruct (Z.ltb_spec i 0) as [?|_]; [lia|].
  destruct (l !! Z.to_nat i) as [x|] eqn:Hx; [by exists x|].
  apply lookup_ge_None in Hx. lia.
Qed.

Lemma bind_unfold {A B : Type} (m : M S A) (k : A -> M S B) w :
  (m ≫= k) w
  = match m w with
    | (Return a, w') => k a w'
    | (Raise e, w') => (Raise e, w')
    end.
Proof. reflexivity. Qed.

Lemma get_run self uid back user tenant roles claims w vs w1 :
  let auth_context := _create_auth_context self user tenant roles claims in
  revisions self uid
    (Some (auth_user auth_context)) (Some (auth_tenant auth_context))
    (Some (auth_roles auth_context)) (Some (claims_keys auth_context)) w
  = (Return vs, w1) ->
  get self uid back user tenant roles claims w
  = if bool_decide (vs = []) || (Z.of_nat (length vs) <=? back)%Z
    then (Return PyFalse, w1)
    else match py_index vs back w1 with
         | (Return v, w2) =>
             let fetch := GetVersionRequest uid (rev_version v) auth_context in
             (Return match answer w2 GetVersion fetch with
                     | Responded r =>
                         if success r
                         then Got {| getvalue := data r; tell := 0 |}
                         else PyFalse
                     | TransportFailure => PyFalse
                     end, sent w2 GetVersion fetch)
         | (Raise e, w2) => (Raise e, w2)
         end.
Proof.
  cbv zeta. intros Hrev. unfold get. rewrite (bind_run _ _ _ _ _ Hrev).
  destruct (bool_decide (vs = []) || _); [done|].
  rewrite bind_unfold. destruct (py_index vs back w1) as [[v|e] w2]; [|done].
  rewrite try_stub_call. destruct (answer _ GetVersion _) as [r|]; [|done].
  by destruct (success r).
Qed.

Lemma py_index_from_end {A : Type} (l : list A) (i : Z) w :
  (- Z.of_nat (length l) <= i < 0)%Z ->
  exists x, l !! Z.to_nat (Z.of_nat (length l) + i) = Some x
            /\ py_index l i w = (Return x, w).
Proof.
  intros Hi. unfold py_index.
  destruct (Z.ltb_spec i 0) as [_|?]; [|lia].
  destruct (Z.ltb_spec (Z.of_nat (length l) + i) 0) as [?|_]; [lia|].
  destruct (l !! Z.to_nat (Z.of_nat (length l) + i)) as [x|] eqn:Hx; [by exists x|].
  apply lookup_ge_None in Hx. lia.
Qed.



(** ** Which operations raise *)

(** [put] with [return_open] raises before anything else happens: the
    world, and with it the call log, is untouched. *)
Lemma put_return_open_raises self uid payload user tenant roles claims w :
  put self uid payload true user tenant roles claims w
  = (Raise (NotImplementedError
              "return_open parameter not supported in gRPC implementation"), w).
Proof. reflexivity. Qed.

Lemma put_returns self uid payload user tenant roles claims w :
  exists result w',
    put self uid payload false user tenant roles claims w = (Return result, w').
Proof.
  unfold put. rewrite try_stub_call.
  destruct (answer w PutFile _) as [r|]; [|by eexists _, _].
  destruct (success r); by eexists _, _.
Qed.

Lemma remove_returns self uid user tenant roles claims w :
  exists result w',
    remove self uid user tenant roles claims w = (Return result, w').
Proof.
  rewrite remove_run. cbv zeta.
  destruct (answer w Stat _) as [r|]; [|by eexists _, _].
  destruct (success r && _); by eexists _, _.
Qed.

Lemma move_returns self source_uid destination_uid new_name
    user tenant roles claims w :
  exists result w',
    move self source_uid destination_uid new_name user tenant roles claims w
    = (Return result, w').
Proof.
  rewrite move_run. cbv zeta.
  destruct (answer w Move _) as [r|]; [|by eexists _, _].
  destruct (success r && _); [|by eexists _, _].
  rewrite rename_run. by eexists _, _.
Qed.

(** [get] raises only through its index expression, and only for a
    negative offset. *)
Lemma get_raises_only_negative self uid back user tenant roles claims w e :
  (get self uid back user tenant roles claims w).1 = Raise e ->
  e = IndexError /\ (back < 0)%Z.
Proof.
  erewrite get_run by apply revisions_run.
  set (vs := match answer w ListVersions _ with
             | Responded _ => _ | TransportFailure => _ end).
  destruct (bool_decide (vs = [])); [done|]. simpl.
  destruct (Z.leb_spec (Z.of_nat (length vs)) back) as [?|Hlen]; [done|].
  unfold py_index.
  destruct (Z.ltb_spec back 0) as [Hneg|Hpos].
  - destruct (_ <? 0)%Z; [by intros [= <-]|].
    destruct (vs !! _); [done|]. by intros [= <-].
  - destruct (Z.ltb_spec back 0) as [?|_]; [lia|].
    destruct (vs !! Z.to_nat back) eqn:Hv; [done|].
    apply lookup_ge_None in Hv. lia.
Qed.

End Remote.

(** ** The operations on concrete services *)

Section Examples.



Example get_latest :
  (get alice "f" 0 None None None None (mkWorld two_revisions [])).1
  = Return (Got {| getvalue := list_byte_of_string "content of v2"; tell := 0 |}).
Proof. vm_compute. reflexivity. Qed.

Example get_out_of_range :
  let run := get alice "f" 2 None None None None (mkWorld two_revisions []) in
  run.1 = Return PyFalse /\ calls_to GetVersion (calls run.2) = [].
Proof. split; vm_compute; reflexivity. Qed.

(** C8.  [get] with a negative offset below minus the number of revisions
    raises [IndexError], after the revision listing and before any content
    fetch: the range check [len(versions) <= back] misses this case, and the
    index expression stands outside the [try] block. *)
Theorem get_negative_offset_raises :
  let run := get alice "f" (-3) None None None None (mkWorld two_revisions []) in
  run.1 = Raise IndexError
  /\ calls_to ListVersions (calls run.2)
     = [ListVersionsRequest "f"
          (_create_auth_context alice (Some "alice") (Some "t") (Some ["user"])
             (Some [ClaimStr "read"]))]
  /\ calls_to GetVersion (calls run.2) = [].
Proof. refine (conj _ (conj _ _)); vm_compute; reflexivity. Qed.

Lemma remove_dispatch_witness :
  let on_dir := remove alice "d" None None None None (mkWorld (all_of_type DIRECTORY) []) in
  let on_file := remove alice "f" None None None None (mkWorld (all_of_type REGULAR_FILE) []) in
  let on_down := remove alice "f" None None None None (mkWorld unreachable []) in
  (calls on_dir.2 = [(Stat, StatRequest "d" alice_auth);
                     (RemoveDirectory, RemoveDirectoryRequest "d" alice_auth)]
   /\ on_dir.1 = Return true)
  /\ (calls on_file.2 = [(Stat, StatRequest "f" alice_auth);
                        (RemoveFile, RemoveFileRequest "f" alice_auth)]
      /\ on_file.1 = Return true)
  /\ (on_down.1 = Return false /\ calls on_down.2 = [(Stat, StatRequest "f" alice_auth)]).
Proof.
  pose proof (remove_dispatch alice "d" None None None None
                (mkWorld (all_of_type DIRECTORY) [])) as (Hd & _ & _).
  pose proof (remove_dispatch alice "f" None None None None
                (mkWorld (all_of_type REGULAR_FILE) [])) as (_ & Hf & _).
  pose proof (remove_dispatch alice "f" None None None None
                (mkWorld unreachable [])) as (_ & _ & Hu).
  refine (conj _ (conj _ _)).
  - exact (Hd _ eq_refl eq_refl eq_refl).
  - exact (Hf _ eq_refl eq_refl eq_refl).
  - exact (Hu eq_refl).
Defined.

Lemma remove_after_failed_stat_witness :
  let run := remove alice "f" None None None None (mkWorld refusing []) in
  calls run.2 = [(Stat, StatRequest "f" alice_auth); (RemoveFile, RemoveFileRequest "f" alice_auth)]
  /\ run.1 = Return true.
Proof.
  exact (remove_after_failed_stat alice "f" None None None None
           (mkWorld refusing []) (flag_response false) eq_refl eq_refl).
Defined.

Lemma move_then_rename_witness :
  let mv := MoveRequest "s" "d" alice_auth in
  let renamed := move alice "s" "d" (Some "n") None None None None
                   (mkWorld (all_of_type REGULAR_FILE) []) in
  let plain := move alice "s" "d" None None None None None
                 (mkWorld (all_of_type REGULAR_FILE) []) in
  let refused := move alice "s" "d" (Some "n") None None None None
                   (mkWorld refusing []) in
  (calls renamed.2 = [(Move, mv); (Rename, RenameRequest "s" "n" alice_auth)]
   /\ renamed.1 = Return false)
  /\ plain = (Return true, mkWorld (all_of_type REGULAR_FILE) [(Move, mv)])
  /\ refused = (Return false, mkWorld refusing [(Move, mv)]).
Proof.
  pose proof (move_then_rename alice "s" "d" (Some "n") None None None None
                (mkWorld (all_of_type REGULAR_FILE) [])) as (_ & Hr & _).
  pose proof (move_then_rename alice "s" "d" None None None None None
                (mkWorld (all_of_type REGULAR_FILE) [])) as (_ & _ & Hp).
  pose proof (move_then_rename alice "s" "d" (Some "n") None None None None
                (mkWorld refusing [])) as (Hf & _).
  refine (conj _ (conj _ _)).
  - destruct (Hr (flag_response true) "n" eq_refl eq_refl eq_refl) as (_ & Hc & Ho);
      [discriminate|]. exact (conj Hc Ho).
  - exact (Hp (flag_response true) eq_refl eq_refl eq_refl).
  - apply Hf. right. exists (flag_response false). by split.
Defined.

(** C7, as the specification states it, fails for [dir]: on a transport
    failure, and on a refused listing, [dir] returns [False], not an empty
    list. *)
Lemma dir_failure_is_False :
  (dir alice "d" false None None None None (mkWorld unreachable [])).1
  = Return PyFalse
  /\ (dir alice "d" false None None None None (mkWorld refusing [])).1
     = Return PyFalse
  /\ @Return (or_false (list (gmap string item_value))) PyFalse <> Return (Got []).
Proof. refine (conj _ (conj _ _)); [reflexivity | reflexivity | discriminate]. Qed.

Lemma listing_failure_values_witness :
  (revisions alice "f" None None None None (mkWorld unreachable [])).1 = Return []
  /\ (file_name alice "f" None None None None (mkWorld refusing [])).1 = Return []
  /\ (dir alice "d" true None None None None (mkWorld unreachable [])).1
     = Return PyFalse.
Proof.
  pose proof (listing_failure_values alice "f" true None None None None
                (mkWorld unreachable [])) as (Hrev & _ & _ & _).
  pose proof (listing_failure_values alice "f" true None None None None
                (mkWorld refusing [])) as (_ & Hname & _ & _).
  pose proof (listing_failure_values alice "d" true None None None None
                (mkWorld unreachable [])) as (_ & _ & Hdir & _).
  refine (conj _ (conj _ _)).
  - apply Hrev. by left.
  - apply Hname. right. exists (flag_response false). by split.
  - apply Hdir. by left.
Defined.

End Examples.

(** ** More on the authentication context *)

Section MoreAuthContext.

Implicit Types (self : ManagedFiles) (ks : list string).

Lemma claims_loop_strings ks : forall (m : gmap string string) k,
  claims_loop (ClaimStr <$> ks) m !! k
  = if decide (k ∈ ks) then Some k else m !! k.
Proof.
  induction ks as [|s ks IH]; intros m k.
  - case_decide as Hin; [by apply elem_of_nil in Hin | reflexivity].
  - rewrite fmap_cons. cbn [claims_loop claims_step]. rewrite IH.
    destruct (decide (k = s)) as [->|Hne].
    + rewrite lookup_insert_eq, (decide_True (P := s ∈ s :: ks)).
      * by destruct (decide (s ∈ ks)).
      * apply elem_of_cons. by left.
    + rewrite lookup_insert_ne by done.
      destruct (decide (k ∈ ks)) as [Hin|Hin].
      * rewrite decide_True; [done|]. apply elem_of_cons. by right.
      * rewrite decide_False; [done|]. rewrite elem_of_cons. by intros [?|?].
Qed.

Lemma auth_claims_strings self user tenant roles ks k :
  auth_claims (_create_auth_context self user tenant roles (Some (ClaimStr <$> ks))) !! k
  = if decide (k ∈ ks) then Some k else None.
Proof. by rewrite auth_claims_loop, claims_loop_strings, lookup_empty. Qed.

(** For a claims list of plain strings the claims map sends exactly the
    listed strings to themselves: a listed string is mapped to itself, any
    other key is absent.  So order and repetition do not matter: two lists
    with the same elements give the same context. *)
Theorem create_auth_context_strings_as_set self user tenant roles ks :
  (forall k,
     auth_claims
       (_create_auth_context self user tenant roles (Some (ClaimStr <$> ks))) !! k
     = if decide (k ∈ ks) then Some k else None)
  /\ (forall ks',
        (forall k, k ∈ ks <-> k ∈ ks') ->
        _create_auth_context self user tenant roles (Some (ClaimStr <$> ks))
        = _create_auth_context self user tenant roles (Some (ClaimStr <$> ks'))).
Proof.
  split; [intros k; apply auth_claims_strings|].
  intros ks' Hsame.
  assert (auth_claims (_create_auth_context self user tenant roles (Some (ClaimStr <$> ks)))
          = auth_claims (_create_auth_context self user tenant roles
                           (Some (ClaimStr <$> ks')))) as Hclaims.
  { apply map_eq. intros k. rewrite !auth_claims_strings.
    destruct (decide (k ∈ ks)) as [Hin|Hin].
    - rewrite decide_True; [done|]. by apply Hsame.
    - rewrite decide_False; [done|]. by rewrite <- Hsame. }
  destruct (_create_auth_context self user tenant roles (Some (ClaimStr <$> ks))) eqn:E1.
  destruct (_create_auth_context self user tenant roles (Some (ClaimStr <$> ks'))) eqn:E2.
  unfold _create_auth_context in E1, E2. simpl in *.
  injection E1 as <- <- <- _. injection E2 as <- <- <- _. by subst.
Qed.

Lemma create_auth_context_strings_as_set_witness :
  let ctx := _create_auth_context alice None None None
               (Some (ClaimStr <$> ["read"; "write"; "read"])) in
  auth_claims ctx !! "read" = Some "read"
  /\ auth_claims ctx !! "write" = Some "write"
  /\ auth_claims ctx !! "delete" = None
  /\ ctx = _create_auth_context alice None None None
             (Some (ClaimStr <$> ["write"; "read"])).
Proof.
  destruct (create_auth_context_strings_as_set alice None None None
              ["read"; "write"; "read"]) as [Hlookup Hset].
  refine (conj _ (conj _ (conj _ _))).
  - rewrite Hlookup. apply decide_True. apply elem_of_cons. by left.
  - rewrite Hlookup. apply decide_True. rewrite !elem_of_cons. auto.
  - rewrite Hlookup. apply decide_False.
    rewrite !elem_of_cons, elem_of_nil. by intros [?|[?|[?|?]]].
  - apply Hset. intros k. rewrite !elem_of_cons, !elem_of_nil. tauto.
Defined.

Lemma py_or_py_or user default :
  py_or (Some (py_or user default)) default = py_or user default.
Proof.
  destruct user as [s|]; simpl.
  - destruct (String.eqb_spec s "") as [->|Hs]; simpl.
    + by destruct (default =? "")%string.
    + by destruct (String.eqb_spec s "").
  - by destruct (default =? "")%string.
Qed.

(** The context [get] and [dir] forward to [revisions] and [get_file_mtime]
    keeps the user, the tenant and the roles of the context it is made from,
    and keeps the keys of its claims, but every key is mapped to itself: the
    values of mapping and pair claims are not forwarded. *)
Theorem forwarded_context_keys_only self user tenant roles claims :
  let auth_context := _create_auth_context self user tenant roles claims in
  let inner := forwarded_context self auth_context in
  auth_user inner = auth_user auth_context
  /\ auth_tenant inner = auth_tenant auth_context
  /\ auth_roles inner = auth_roles auth_context
  /\ forall k, auth_claims inner !! k = (fun _ => k) <$> auth_claims auth_context !! k.
Proof.
  cbv zeta. unfold forwarded_context. refine (conj _ (conj _ (conj _ _))).
  - apply py_or_py_or.
  - reflexivity.
  - reflexivity.
  - intros k. unfold claims_keys. rewrite auth_claims_strings.
    set (m := auth_claims (_create_auth_context self user tenant roles claims)).
    destruct (m !! k) as [v|] eqn:Hk; simpl.
    + rewrite decide_True; [done|].
      apply list_elem_of_fmap. exists (k, v). split; [done|].
      by apply elem_of_map_to_list.
    + rewrite decide_False; [done|].
      intros ([k' v] & -> & Hin)%list_elem_of_fmap.
      apply elem_of_map_to_list in Hin. simpl in Hk. congruence.
Qed.

End MoreAuthContext.

(** ** Revisions and their names *)

Section Names.

Lemma split_dash_nonempty s : split_dash s <> [].
Proof.
  destruct s as [|c s]; simpl; [done|].
  destruct (Ascii.eqb c "-"); [done|]. by destruct (split_dash s).
Qed.

(** ['-'.join(uid.split('-')) == uid]. *)
Lemma split_dash_join s : String.concat "-" (split_dash s) = s.
Proof.
  induction s as [|c s IH]; [done|]. simpl.
  pose proof (split_dash_nonempty s) as Hne.
  destruct (Ascii.eqb_spec c "-") as [->|Hc].
  - destruct (split_dash s) as [|h t] eqn:E; [done|].
    change (String.concat "-" ("" :: h :: t))
      with (String "-" (String.concat "-" (h :: t))).
    by rewrite IH.
  - destruct (split_dash s) as [|h t] eqn:E; [done|].
    rewrite <- IH. by destruct t.
Qed.

Lemma split_dash_segments s :
  Forall (fun seg => has_dash seg = false) (split_dash s).
Proof.
  induction s as [|c s IH]; simpl; [by repeat constructor|].
  destruct (Ascii.eqb_spec c "-") as [->|Hc]; [by constructor|].
  destruct (split_dash s) as [|h t]; simpl.
  - repeat constructor. simpl. by destruct (Ascii.eqb_spec c "-").
  - inversion IH as [|? ? Hh Ht]; subst. constructor; [|done].
    simpl. rewrite Hh. by destruct (Ascii.eqb_spec c "-").
Qed.

Lemma split_dash_no_dash s : has_dash s = false -> split_dash s = [s].
Proof.
  induction s as [|c s IH]; simpl; [done|].
  destruct (Ascii.eqb c "-"); [done|]. simpl. intros Hs. by rewrite (IH Hs).
Qed.

Lemma last_elem_of {A : Type} (l : list A) (d : A) :
  l <> [] -> List.last l d ∈ l.
Proof.
  induction l as [|x [|y l] IH]; intros Hne; [done| |].
  - apply elem_of_cons. by left.
  - apply elem_of_cons. right. by apply IH.
Qed.

Lemma split_dash_last_no_dash s : has_dash (List.last (split_dash s) "") = false.
Proof.
  pose proof (split_dash_segments s) as Hseg. rewrite Forall_forall in Hseg.
  apply Hseg, last_elem_of, split_dash_nonempty.
Qed.

Lemma split_dash_single s h : split_dash s = [h] -> has_dash s = false.
Proof.
  intros E. pose proof (split_dash_join s) as Hj.
  pose proof (split_dash_segments s) as Hseg. rewrite E in Hj, Hseg.
  simpl in Hj. subst h. by inversion Hseg.
Qed.

Lemma split_dash_last_cons c s :
  has_dash s = true ->
  List.last (split_dash (String c s)) "" = List.last (split_dash s) "".
Proof.
  intros Hs. cbn [split_dash].
  destruct (split_dash s) as [|h [|h' t]] eqn:E.
  - by destruct (split_dash_nonempty s).
  - apply split_dash_single in E. congruence.
  - by destruct (Ascii.eqb c "-").
Qed.

Lemma split_dash_last_after_dash s :
  has_dash s = true ->
  exists p, s = String.append p (String "-" (List.last (split_dash s) "")).
Proof.
  induction s as [|c s IH]; [done|]. cbn [has_dash]. intros Hcs.
  destruct (has_dash s) eqn:Hs.
  - destruct (IH eq_refl) as [p Hp]. exists (String c p).
    rewrite (split_dash_last_cons c s Hs).
    change (String c s = String c (p +:+ String "-" (List.last (split_dash s) ""))).
    by rewrite <- Hp.
  - rewrite orb_false_r in Hcs. apply Ascii.eqb_eq in Hcs as ->.
    exists "". cbn [split_dash]. rewrite Ascii.eqb_refl.
    by rewrite (split_dash_no_dash s Hs).
Qed.

End Names.

(** ** More on the operations *)

Section MoreRemote.

Context {S : Type} `{FileService S}.
Implicit Types (self : ManagedFiles) (w : World S) (show_deleted : bool).

Lemma listed_run self uid user tenant roles claims w :
  revisions self uid user tenant roles claims w
  = (Return (listed self uid user tenant roles claims w),
     sent w ListVersions
       (ListVersionsRequest uid (_create_auth_context self user tenant roles claims))).
Proof. unfold listed. by rewrite revisions_run. Qed.

(** On a successful listing [revisions] returns one dictionary per version
    of the response, in the order of the response.  Every dictionary names
    the user of the request's context, and its name is the part of [uid]
    after the last ['-']: it holds no ['-'], and it is [uid] itself when
    [uid] holds none. *)
Theorem revisions_success_shape self uid user tenant roles claims w r vs :
  let auth_context := _create_auth_context self user tenant roles claims in
  answer w ListVersions (ListVersionsRequest uid auth_context) = Responded r ->
  success r = true ->
  (revisions self uid user tenant roles claims w).1 = Return vs ->
  rev_version <$> vs = versions r
  /\ Forall (fun v =>
       rev_user v = auth_user auth_context
       /\ has_dash (rev_name v) = false
       /\ (has_dash uid = false -> rev_name v = uid)
       /\ (has_dash uid = true ->
           exists p, uid = String.append p (String "-" (rev_name v)))) vs.
Proof.
  cbv zeta. intros Hr Hok. rewrite revisions_run. cbv zeta. rewrite Hr, Hok.
  intros [= <-]. split.
  - rewrite <- list_fmap_compose. by rewrite list_fmap_id.
  - apply Forall_fmap, Forall_true. intros v. simpl.
    destruct (has_dash uid) eqn:Hd.
    + refine (conj eq_refl (conj _ (conj _ _))); [|done|].
      * apply split_dash_last_no_dash.
      * intros _. by apply split_dash_last_after_dash.
    + by refine (conj eq_refl (conj Hd (conj _ _))).
Qed.


Lemma py_index_below {A : Type} (l : list A) (i : Z) w :
  (i < - Z.of_nat (length l))%Z -> py_index l i w = (Raise IndexError, w).
Proof.
  intros Hi. unfold py_index.
  destruct (Z.ltb_spec i 0) as [_|?]; [|lia].
  by destruct (Z.ltb_spec (Z.of_nat (length l) + i) 0) as [_|?]; [|lia].
Qed.

Lemma py_index_cases {A : Type} (l : list A) (i : Z) w :
  (exists x, x ∈ l /\ py_index l i w = (Return x, w))
  \/ py_index l i w = (Raise IndexError, w).
Proof.
  unfold py_index.
  destruct (_ <? 0)%Z; [by right|].
  destruct (l !! _) as [x|] eqn:Hx; [|by right].
  left. exists x. split; [by eapply list_elem_of_lookup_2|done].
Qed.

Lemma get_unfold self uid back user tenant roles claims w :
  let auth_context := _create_auth_context self user tenant roles claims in
  let vs := listed self uid
              (Some (auth_user auth_context)) (Some (auth_tenant auth_context))
              (Some (auth_roles auth_context)) (Some (claims_keys auth_context)) w in
  let w1 := sent w ListVersions
              (ListVersionsRequest uid (forwarded_context self auth_context)) in
  get self uid back user tenant roles claims w
  = if bool_decide (vs = []) || (Z.of_nat (length vs) <=? back)%Z
    then (Return PyFalse, w1)
    else match py_index vs back w1 with
         | (Return v, w2) =>
             let fetch := GetVersionRequest uid (rev_version v) auth_context in
             (Return match answer w2 GetVersion fetch with
                     | Responded r =>
                         if success r
                         then Got {| getvalue := data r; tell := 0 |}
                         else PyFalse
                     | TransportFailure => PyFalse
                     end, sent w2 GetVersion fetch)
         | (Raise e, w2) => (Raise e, w2)
         end.
Proof. cbv zeta. apply get_run, listed_run. Qed.

(** A negative offset that is in range counts from the oldest revision:
    for [-len(versions) <= back < 0], [get] fetches the version at index
    [len(versions) + back], so [back = -1] reads the oldest revision. *)
Theorem get_negative_offset_from_oldest self uid back user tenant roles claims w :
  let auth_context := _create_auth_context self user tenant roles claims in
  let vs := listed self uid
              (Some (auth_user auth_context)) (Some (auth_tenant auth_context))
              (Some (auth_roles auth_context)) (Some (claims_keys auth_context)) w in
  let w1 := sent w ListVersions
              (ListVersionsRequest uid (forwarded_context self auth_context)) in
  (- Z.of_nat (length vs) <= back < 0)%Z ->
  exists v,
    vs !! Z.to_nat (Z.of_nat (length vs) + back) = Some v
    /\ let fetch := GetVersionRequest uid (rev_version v) auth_context in
       get self uid back user tenant roles claims w
       = (Return match answer w1 GetVersion fetch with
                 | Responded r =>
                     if success r
                     then Got {| getvalue := data r; tell := 0 |}
                     else PyFalse
                 | TransportFailure => PyFalse
                 end, sent w1 GetVersion fetch).
Proof.
  cbv zeta. intros Hback. rewrite get_unfold. cbv zeta.
  set (vs := listed _ _ _ _ _ _ _) in *.
  destruct (py_index_from_end vs back
              (sent w ListVersions
                 (ListVersionsRequest uid
                    (forwarded_context self
                       (_create_auth_context self user tenant roles claims)))) Hback)
    as (v & Hv & ->).
  exists v. split; [done|].
  destruct (Z.leb_spec (Z.of_nat (length vs)) back) as [?|_]; [lia|].
  rewrite orb_false_r, bool_decide_eq_false_2; [done|].
  intros Hnil. rewrite Hnil in Hback. simpl in Hback. lia.
Qed.

(** [get] raises exactly when the revision list is not empty and the offset
    lies below minus its length; the exception is [IndexError], raised after
    the listing call and before any content fetch. *)
Theorem get_raises_iff self uid back user tenant roles claims w e :
  let auth_context := _create_auth_context self user tenant roles claims in
  let vs := listed self uid
              (Some (auth_user auth_context)) (Some (auth_tenant auth_context))
              (Some (auth_roles auth_context)) (Some (claims_keys auth_context)) w in
  let w1 := sent w ListVersions
              (ListVersionsRequest uid (forwarded_context self auth_context)) in
  ((get self uid back user tenant roles claims w).1 = Raise e
   <-> e = IndexError /\ vs <> [] /\ (back < - Z.of_nat (length vs))%Z)
  /\ (vs <> [] -> (back < - Z.of_nat (length vs))%Z ->
      (get self uid back user tenant roles claims w).2 = w1).
Proof.
  cbv zeta. rewrite get_unfold. cbv zeta.
  set (vs := listed _ _ _ _ _ _ _). set (w1 := sent w ListVersions _).
  destruct (decide (vs = [])) as [Hnil|Hne].
  { rewrite bool_decide_eq_true_2 by done. simpl.
    split; [|done]. split; [done|]. by intros (_ & ? & _). }
  rewrite bool_decide_eq_false_2 by done. simpl.
  destruct (Z.leb_spec (Z.of_nat (length vs)) back) as [Hle|Hlt].
  { split; [|intros; lia]. split; [done|]. intros (_ & _ & ?). lia. }
  destruct (Z_lt_le_dec back (- Z.of_nat (length vs))) as [Hbelow|Habove].
  - rewrite (py_index_below vs back w1 Hbelow). simpl. split; [|done]. split.
    + by intros [= <-].
    + by intros (-> & _).
  - split; [|intros; lia].
    destruct (Z_lt_le_dec back 0) as [Hneg|Hpos].
    + destruct (py_index_from_end vs back w1 ltac:(lia)) as (v & _ & ->).
      split; [done|]. intros (_ & _ & ?). lia.
    + destruct (py_index_in_range vs back w1 ltac:(lia)) as (v & _ & ->).
      split; [done|]. intros (_ & _ & ?). lia.
Qed.

(** Whatever the offset, [get] issues the listing call first and at most one
    content fetch after it.  The listing call carries the forwarded context
    (claims reduced to their keys), the content fetch carries the context of
    the call itself and asks for a version of the listed revisions. *)
Theorem get_call_sequence self uid back user tenant roles claims w :
  let auth_context := _create_auth_context self user tenant roles claims in
  let vs := listed self uid
              (Some (auth_user auth_context)) (Some (auth_tenant auth_context))
              (Some (auth_roles auth_context)) (Some (claims_keys auth_context)) w in
  let listing :=
    (ListVersions, ListVersionsRequest uid (forwarded_context self auth_context)) in
  calls (get self uid back user tenant roles claims w).2 = calls w ++ [listing]
  \/ exists v,
       v ∈ vs
       /\ calls (get self uid back user tenant roles claims w).2
          = calls w ++ [listing;
                        (GetVersion, GetVersionRequest uid (rev_version v) auth_context)].
Proof.
  cbv zeta. rewrite get_unfold. cbv zeta.
  set (vs := listed _ _ _ _ _ _ _). set (w1 := sent w ListVersions _).
  destruct (bool_decide (vs = []) || _); [by left|].
  destruct (py_index_cases vs back w1) as [(v & Hv & ->) | ->]; [|by left].
  right. exists v. split; [done|].
  simpl. by rewrite <- (assoc_L (++)).
Qed.


Lemma replay_calls w : forall cs, calls (replay w cs) = calls w ++ cs.
Proof.
  intros cs. revert w. induction cs as [|[method req] cs IH]; intros w.
  - by rewrite (right_id_L [] (++)).
  - unfold replay in *. cbn [foldl]. rewrite IH. simpl.
    by rewrite <- (assoc_L (++)).
Qed.

Lemma replay_app w cs cs' : replay w (cs ++ cs') = replay (replay w cs) cs'.
Proof. apply foldl_app. Qed.

Lemma regular_files_cons entry es :
  length (regular_files (entry :: es))
  = length (regular_files [entry]) + length (regular_files es).
Proof.
  unfold regular_files. rewrite !filter_cons, filter_nil.
  by destruct (decide (entry_type entry = REGULAR_FILE)).
Qed.

Lemma regular_files_app es es' :
  regular_files (es ++ es') = regular_files es ++ regular_files es'.
Proof. apply filter_app. Qed.

Lemma entry_calls_length self auth_context entry w :
  length (regular_files [entry]) <= length (entry_calls self auth_context entry w)
  <= 2 * length (regular_files [entry]).
Proof.
  unfold entry_calls, regular_files. rewrite filter_cons, filter_nil.
  destruct (Z.eqb_spec (entry_type entry) REGULAR_FILE) as [Hreg|Hreg].
  - rewrite decide_True by done. destruct (listed _ _ _ _ _ _ _); simpl; lia.
  - rewrite decide_False by done. simpl. lia.
Qed.

Lemma expected_calls_length self auth_context es : forall w,
  length (regular_files es) <= length (expected_calls self auth_context es w)
  <= 2 * length (regular_files es).
Proof.
  induction es as [|entry rest IH]; intros w; [simpl; lia|].
  cbn [expected_calls]. rewrite regular_files_cons, length_app.
  pose proof (entry_calls_length self auth_context entry w).
  pose proof (IH (replay w (entry_calls self auth_context entry w))). lia.
Qed.

Lemma rejected_mtime_mono self auth_context es es' es'' err :
  rejected_mtime self auth_context es err ->
  rejected_mtime self auth_context (es' ++ es ++ es'') err.
Proof.
  intros (entry & w & r & Hin & Hrest). exists entry, w, r. split; [|done].
  rewrite !regular_files_app, !elem_of_app. auto.
Qed.

(** One round of the loop of [dir]: it issues the calls of [entry_calls],
    and either returns a dictionary for the entry or raises the error of
    the conversion of the modification time. *)
Lemma dir_item_cases self auth_context entry w :
  let w' := replay w (entry_calls self auth_context entry w) in
  (exists item,
     dir_item self auth_context entry w = (Return item, w')
     /\ describes auth_context entry item)
  \/ (exists err,
        dir_item self auth_context entry w = (Raise (timestamp_exn err), w')
        /\ rejected_mtime self auth_context [entry] err).
Proof.
  cbv zeta. unfold dir_item, entry_calls.
  set (base := ({[ "uid" := _; "name" := _; "creator" := _; "is_container" := _ ]}
                : gmap string item_value)).
  assert (describes auth_context entry base) as Hbase.
  { unfold describes, base. refine (conj _ (conj _ (conj _ (conj _ _)))).
    1-4: by simplify_map_eq.
    left. unfold base_keys. rewrite !dom_insert_L, dom_singleton_L. set_solver. }
  destruct (Z.eqb_spec (entry_type entry) REGULAR_FILE) as [Hreg|Hreg];
    [|left; by exists base].
  rewrite bind_unfold, listed_run.
  destruct (listed _ _ _ _ _ _ _) as [|latest revs]; [left; by exists base|].
  rewrite bind_unfold, get_file_mtime_run. cbv zeta.
  assert (forall t,
    describes auth_context entry
      (<["mtime" := ItemTime t]>
         (<["version" := ItemStr (rev_version latest)]>
            (<["uploading_user" := ItemStr (auth_user auth_context)]> base))))
    as Hfull.
  { intros t. destruct Hbase as (Hu & Hn & Hc & Hi & _).
    unfold describes. refine (conj _ (conj _ (conj _ (conj _ _)))).
    1-4: by simplify_map_eq.
    right. split; [done|].
    refine (conj _ (conj _ (conj _ _))).
    - unfold base, base_keys, version_keys.
      rewrite !dom_insert_L, dom_singleton_L. set_solver.
    - by simplify_map_eq.
    - eexists. by simplify_map_eq.
    - eexists. by simplify_map_eq. }
  destruct (answer _ Stat _) as [r|] eqn:Hstat; [|left; eexists; by split].
  destruct (success r) eqn:Hok; [|left; eexists; by split].
  destruct (fromtimestamp_error _) as [err|] eqn:Herr; [|left; eexists; by split].
  right. exists err. split; [done|].
  eexists entry, _, r. split; [|by split].
  unfold regular_files. rewrite filter_cons, filter_nil, decide_True by done.
  by apply list_elem_of_singleton.
Qed.

(** The loop of [dir]: it either returns one dictionary per entry, after the
    calls of [expected_calls], or raises the error of a conversion, after
    some of these calls. *)
Lemma dir_loop_cases self auth_context es : forall result w,
  (exists items,
     dir_loop self auth_context es result w
     = (Return (result ++ items), replay w (expected_calls self auth_context es w))
     /\ Forall2 (describes auth_context) es items)
  \/ (exists err added,
        dir_loop self auth_context es result w
        = (Raise (timestamp_exn err), replay w added)
        /\ added `prefix_of` expected_calls self auth_context es w
        /\ rejected_mtime self auth_context es err).
Proof.
  induction es as [|entry rest IH]; intros result w.
  - left. exists []. rewrite (right_id_L [] (++)). by split; [|constructor].
  - cbn [dir_loop expected_calls]. rewrite bind_unfold.
    set (cs := entry_calls self auth_context entry w).
    destruct (dir_item_cases self auth_context entry w)
      as [(item & -> & Hdesc) | (err & -> & Hrej)]; fold cs.
    + destruct (IH (result ++ [item]) (replay w cs))
        as [(items & -> & Hall) | (err & added & -> & Hpre & Hrej)].
      * left. exists (item :: items).
        rewrite <- (assoc_L (++)), replay_app. by split; [|constructor].
      * right. exists err, (cs ++ added). rewrite replay_app.
        split; [done|]. split; [by apply prefix_app|].
        pose proof (rejected_mtime_mono self auth_context rest [entry] [] err Hrej)
          as Hm.
        by rewrite (right_id_L [] (++)) in Hm.
    + right. exists err, cs. split; [done|]. split; [by apply prefix_app_r|].
      apply (rejected_mtime_mono self auth_context [entry] [] rest err Hrej).
Qed.

(** When the listing call succeeds, [dir] either returns one dictionary per
    entry of the response, in the order of the response, or raises the error
    [datetime.fromtimestamp] gives for the modification time that a
    successful [Stat] response reports for one of the regular files; a
    per-entry call that fails at the transport or is refused never fails the
    listing.  Every dictionary holds the uid and the name of its entry, the
    user of the context as creator, and the string ["True"] or ["False"] as
    [is_container].  It holds either these four keys only, or, for a regular
    file, also [uploading_user], [version] and [mtime]. *)
Theorem dir_listing_shape self uid show_deleted user tenant roles claims w r :
  let auth_context := _create_auth_context self user tenant roles claims in
  answer w (if show_deleted then ListDirectoryWithDeleted else ListDirectory)
    (if show_deleted
     then ListDirectoryWithDeletedRequest uid auth_context
     else ListDirectoryRequest uid auth_context) = Responded r ->
  success r = true ->
  match (dir self uid show_deleted user tenant roles claims w).1 with
  | Return result =>
      exists items,
        result = Got items /\ Forall2 (describes auth_context) (entries r) items
  | Raise e =>
      exists err,
        e = timestamp_exn err /\ rejected_mtime self auth_context (entries r) err
  end.
Proof.
  cbv zeta. intros Hr Hok. rewrite dir_run. cbv zeta. rewrite Hr, Hok.
  destruct (dir_loop_cases self (_create_auth_context self user tenant roles claims)
              (entries r) []
              (sent w (if show_deleted then ListDirectoryWithDeleted else ListDirectory)
                 (if show_deleted
                  then ListDirectoryWithDeletedRequest uid
                         (_create_auth_context self user tenant roles claims)
                  else ListDirectoryRequest uid
                         (_create_auth_context self user tenant roles claims))))
    as [(items & -> & Hall) | (err & added & -> & _ & Hrej)].
  - by exists items.
  - by exists err.
Qed.

(** After a successful listing call [dir] goes through the entries in
    order and issues calls for the regular files only: for each the listing
    of its revisions and, exactly when that listing is not empty, the [Stat]
    call for its modification time, both under the forwarded context.  When
    [dir] returns, its log is the listing call followed by exactly these
    calls; when it raises, by the calls up to the one whose conversion
    failed.  A listing with [n] regular files that returns costs between
    [1 + n] and [1 + 2n] calls. *)
Theorem dir_calls self uid show_deleted user tenant roles claims w r :
  let auth_context := _create_auth_context self user tenant roles claims in
  let method := if show_deleted then ListDirectoryWithDeleted else ListDirectory in
  let req := if show_deleted
             then ListDirectoryWithDeletedRequest uid auth_context
             else ListDirectoryRequest uid auth_context in
  let run := dir self uid show_deleted user tenant roles claims w in
  let expected :=
    expected_calls self auth_context (entries r) (sent w method req) in
  answer w method req = Responded r ->
  success r = true ->
  (exists added,
     calls run.2 = calls w ++ (method, req) :: added
     /\ added `prefix_of` expected)
  /\ (forall result,
        run.1 = Return result ->
        calls run.2 = calls w ++ (method, req) :: expected)
  /\ length (regular_files (entries r)) <= length expected
     <= 2 * length (regular_files (entries r)).
Proof.
  cbv zeta. intros Hr Hok. rewrite dir_run. cbv zeta. rewrite Hr, Hok.
  split; [|split; [|apply expected_calls_length]];
    destruct (dir_loop_cases self (_create_auth_context self user tenant roles claims)
                (entries r) []
                (sent w (if show_deleted then ListDirectoryWithDeleted
                         else ListDirectory)
                   (if show_deleted
                    then ListDirectoryWithDeletedRequest uid
                           (_create_auth_context self user tenant roles claims)
                    else ListDirectoryRequest uid
                           (_create_auth_context self user tenant roles claims))))
      as [(items & -> & _) | (err & added & -> & Hpre & _)]; simpl.
  - eexists. rewrite replay_calls. simpl. rewrite <- (assoc_L (++)). by split.
  - exists added. rewrite replay_calls. simpl. rewrite <- (assoc_L (++)). by split.
  - intros _ _. rewrite replay_calls. simpl. by rewrite <- (assoc_L (++)).
  - by intros result.
Qed.

(** [put] without [return_open] issues exactly one [PutFile] call and never
    raises.  The request carries the payload as bytes: nothing for [None], the
    encoding of a [str].  On success the result is the reading of the local
    clock after the call, whatever else the response holds; on either failure
    tier it is [False]. *)
Theorem put_single_call self uid payload user tenant roles claims w :
  let auth_context := _create_auth_context self user tenant roles claims in
  let bytes := match payload with
               | PayloadNone => []
               | PayloadStr s => list_byte_of_string s
               | PayloadBytes b => b
               end in
  let req := PutFileRequest uid auth_context bytes in
  put self uid payload false user tenant roles claims w
  = (Return match answer w PutFile req with
            | Responded r =>
                if success r
                then Got (time_time (server (sent w PutFile req)))
                else PyFalse
            | TransportFailure => PyFalse
            end, sent w PutFile req).
Proof.
  cbv zeta. unfold put. rewrite try_stub_call.
  destruct (answer w PutFile _) as [r|]; [|done]. by destruct (success r).
Qed.

(** [remove] calls [RemoveDirectory] exactly when the [Stat] response
    signals success and the type [DIRECTORY]; every other response, be it a
    refusal, a regular file, a symlink or an unknown type code, leads to
    [RemoveFile].  Either way exactly one removal call follows the [Stat]
    call. *)
Theorem remove_directory_iff self uid user tenant roles claims w info_resp :
  let auth_context := _create_auth_context self user tenant roles claims in
  let stat := StatRequest uid auth_context in
  let run := remove self uid user tenant roles claims w in
  answer w Stat stat = Responded info_resp ->
  (success info_resp = true /\ info_type (info info_resp) = DIRECTORY ->
   calls run.2
   = calls w ++ [(Stat, stat); (RemoveDirectory, RemoveDirectoryRequest uid auth_context)])
  /\ (~ (success info_resp = true /\ info_type (info info_resp) = DIRECTORY) ->
      calls run.2
      = calls w ++ [(Stat, stat); (RemoveFile, RemoveFileRequest uid auth_context)]).
Proof.
  cbv zeta. intros Hstat. rewrite remove_run. cbv zeta. rewrite Hstat. split.
  - intros [-> ->]. simpl. by rewrite <- (assoc_L (++)).
  - intros Hnot.
    destruct (success info_resp) eqn:Hok; simpl.
    + destruct (Z.eqb_spec (info_type (info info_resp)) DIRECTORY) as [Hd|Hd].
      * by destruct Hnot.
      * simpl. by rewrite <- (assoc_L (++)).
    + by rewrite <- (assoc_L (++)).
Qed.

Lemma is_dir_run self uid user tenant roles claims w :
  let req := StatRequest uid (_create_auth_context self user tenant roles claims) in
  is_dir self uid user tenant roles claims w
  = (Return
       match answer w Stat req with
       | Responded r => success r && (info_type (info r) =? DIRECTORY)%Z
       | TransportFailure => false
       end, sent w Stat req).
Proof.
  simpl. unfold is_dir. rewrite try_stub_call.
  destruct (answer _ _ _) as [r|]; [|done]. by destruct (success r).
Qed.

Lemma get_folder_cdate_run self uid user tenant roles claims w :
  let req := StatRequest uid (_create_auth_context self user tenant roles claims) in
  get_folder_cdate self uid user tenant roles claims w
  = (match answer w Stat req with
     | Responded r =>
         if success r
         then match fromtimestamp_error (info_created_at (info r)) with
              | None => Return (Some (at_timestamp (info_created_at (info r))))
              | Some err => Raise (timestamp_exn err)
              end
         else Return None
     | TransportFailure => Return None
     end, sent w Stat req).
Proof.
  simpl. unfold get_folder_cdate. rewrite try_stub_call.
  destruct (answer _ _ _) as [r|]; [|done]. destruct (success r); [|done].
  unfold try_except_RpcError, mbind, M_bind, bind, fromtimestamp.
  by destruct (fromtimestamp_error _) as [[]|].
Qed.

(** [remove] and [is_dir] agree: asked in the same world with the same
    identity, [remove] takes the directory path exactly when [is_dir] answers
    [True]. *)
Theorem remove_follows_is_dir self uid user tenant roles claims w :
  let auth_context := _create_auth_context self user tenant roles claims in
  (is_dir self uid user tenant roles claims w).1 = Return true
  <-> calls (remove self uid user tenant roles claims w).2
      = calls w ++ [(Stat, StatRequest uid auth_context);
                    (RemoveDirectory, RemoveDirectoryRequest uid auth_context)].
Proof.
  cbv zeta. rewrite is_dir_run, remove_run. cbv zeta.
  destruct (answer w Stat _) as [r|]; simpl.
  - destruct (success r && _); simpl; rewrite <- (assoc_L (++)); split; try done.
    + intros Heq. apply (inj (app (calls w))) in Heq. discriminate Heq.
  - split; [done|]. intros Heq. apply (inj (app (calls w))) in Heq. discriminate Heq.
Qed.

(** The four operations that read [Stat] issue the same single call, and
    each returns its failure value exactly when that call fails, at the
    transport or in its response: [file_name] the empty list, [get_file_mtime]
    and [get_folder_cdate] [None], [is_dir] then [False].  [file_name] and
    [is_dir] never raise.  [get_file_mtime] and [get_folder_cdate] raise
    exactly when the call succeeds and [datetime.fromtimestamp] rejects the
    time it reports; [file_name] returns the name in that case. *)
Theorem stat_readers self uid user tenant roles claims w :
  let req := StatRequest uid (_create_auth_context self user tenant roles claims) in
  let w1 := sent w Stat req in
  let name := file_name self uid user tenant roles claims w in
  let mtime := get_file_mtime self uid user tenant roles claims w in
  let cdate := get_folder_cdate self uid user tenant roles claims w in
  let isdir := is_dir self uid user tenant roles claims w in
  (name.2 = w1 /\ mtime.2 = w1 /\ cdate.2 = w1 /\ isdir.2 = w1)
  /\ (name.1 = Return [] <-> stat_failed w req)
  /\ (mtime.1 = Return None <-> stat_failed w req)
  /\ (cdate.1 = Return None <-> stat_failed w req)
  /\ (stat_failed w req -> isdir.1 = Return false)
  /\ (forall e, name.1 <> Raise e /\ isdir.1 <> Raise e)
  /\ (forall e,
        mtime.1 = Raise e
        <-> exists r err,
              answer w Stat req = Responded r /\ success r = true
              /\ fromtimestamp_error (info_modified_at (info r)) = Some err
              /\ e = timestamp_exn err)
  /\ (forall e,
        cdate.1 = Raise e
        <-> exists r err,
              answer w Stat req = Responded r /\ success r = true
              /\ fromtimestamp_error (info_created_at (info r)) = Some err
              /\ e = timestamp_exn err)
  /\ (forall r,
        answer w Stat req = Responded r -> success r = true ->
        name.1 = Return [info_name (info r)]).
Proof.
  cbv zeta. rewrite file_name_run, get_file_mtime_run, get_folder_cdate_run, is_dir_run.
  cbv zeta. unfold stat_failed. split; [done|].
  destruct (answer w Stat _) as [r|].
  - destruct (success r) eqn:Hok.
    + refine (conj _ (conj _ (conj _ (conj _ (conj _ (conj _ (conj _ _))))))).
      * split; [done|]. intros [?|(r' & [= <-] & ?)]; congruence.
      * split; [by destruct (fromtimestamp_error _)|].
        intros [?|(r' & [= <-] & ?)]; congruence.
      * split; [by destruct (fromtimestamp_error _)|].
        intros [?|(r' & [= <-] & ?)]; congruence.
      * intros [?|(r' & [= <-] & ?)]; congruence.
      * done.
      * intros e.
        destruct (fromtimestamp_error (info_modified_at _)) as [err|] eqn:Herr.
        -- split; [intros [= <-]; by exists r, err|].
           intros (r' & err' & [= <-] & _ & Herr' & ->). simpl. congruence.
        -- split; [done|]. intros (r' & err' & [= <-] & _ & ? & _). congruence.
      * intros e.
        destruct (fromtimestamp_error (info_created_at _)) as [err|] eqn:Herr.
        -- split; [intros [= <-]; by exists r, err|].
           intros (r' & err' & [= <-] & _ & Herr' & ->). simpl. congruence.
        -- split; [done|]. intros (r' & err' & [= <-] & _ & ? & _). congruence.
      * by intros r' [= <-] _.
    + refine (conj _ (conj _ (conj _ (conj _ (conj _ (conj _ (conj _ _))))))).
      1-3: split; [intros _; right; by exists r|done].
      * done.
      * done.
      * intros e. split; [done|].
        intros (r' & err' & [= <-] & ? & _). congruence.
      * intros e. split; [done|].
        intros (r' & err' & [= <-] & ? & _). congruence.
      * intros r' [= <-] ?. congruence.
  - refine (conj _ (conj _ (conj _ (conj _ (conj _ (conj _ (conj _ _))))))).
    1-3: split; [intros _; by left|done].
    + done.
    + done.
    + intros e. split; [done|]. by intros (r' & err' & ? & _).
    + intros e. split; [done|]. by intros (r' & err' & ? & _).
    + by intros r' ?.
Qed.

End MoreRemote.

(** ** The identity of an instance over time *)

Section Identity.

Implicit Types (self : ManagedFiles).

Lemma set_user_information_fields self u r c :
  set_user_information self u r c
  = {| self_user := if truthy_str u then if_not_None u (self_user self)
                    else self_user self;
       self_roles := if truthy_list r then if_not_None r (self_roles self)
                     else self_roles self;
       self_claims := if truthy_list c then if_not_None c (self_claims self)
                      else self_claims self;
       self_tenant := self_tenant self |}.
Proof.
  destruct self as [su sr sc st]. unfold set_user_information.
  by destruct (truthy_str u), (truthy_list r), (truthy_list c).
Qed.

(** Two successive calls of [set_user_information] amount to one call whose
    arguments are, field by field, the later argument when it is truthy and
    the earlier one otherwise. *)
Theorem set_user_information_twice self u r c u' r' c' :
  set_user_information (set_user_information self u r c) u' r' c'
  = set_user_information self (later_str u u') (later_list r r') (later_list c c').
Proof.
  rewrite !set_user_information_fields. cbn [self_user self_roles self_claims self_tenant].
  unfold later_str, later_list. f_equal.
  - destruct u' as [[|? ?]|]; [| |]; try reflexivity.
  - destruct r' as [[|? ?]|]; [| |]; try reflexivity.
  - destruct c' as [[|? ?]|]; [| |]; try reflexivity.
Qed.

Lemma set_user_information_keeps_nonempty self u r c :
  (self_user self <> "" -> self_user (set_user_information self u r c) <> "")
  /\ (self_roles self <> [] -> self_roles (set_user_information self u r c) <> [])
  /\ (self_claims self <> [] -> self_claims (set_user_information self u r c) <> [])
  /\ self_tenant (set_user_information self u r c) = self_tenant self.
Proof.
  rewrite set_user_information_fields. cbn [self_user self_roles self_claims self_tenant].
  refine (conj _ (conj _ (conj _ eq_refl))).
  - destruct u as [u|]; simpl; [|done]. by destruct (String.eqb_spec u "").
  - by destruct r as [[|? ?]|].
  - by destruct c as [[|? ?]|].
Qed.

(** No sequence of [set_user_information] calls empties a field or touches
    the tenant: a non-empty user name, role list or claim list stays
    non-empty, and the tenant stays what the constructor was given. *)
Theorem after_updates_keeps_nonempty self us :
  (self_user self <> "" -> self_user (after_updates self us) <> "")
  /\ (self_roles self <> [] -> self_roles (after_updates self us) <> [])
  /\ (self_claims self <> [] -> self_claims (after_updates self us) <> [])
  /\ self_tenant (after_updates self us) = self_tenant self.
Proof.
  revert self. induction us as [|[[u r] c] us IH]; intros self; [done|].
  unfold after_updates in *. cbn [foldl fst snd].
  destruct (IH (set_user_information self u r c)) as (Hu & Hr & Hc & Ht).
  destruct (set_user_information_keeps_nonempty self u r c) as (Hu' & Hr' & Hc' & Ht').
  exact (conj (fun h => Hu (Hu' h))
           (conj (fun h => Hr (Hr' h))
              (conj (fun h => Hc (Hc' h)) (eq_trans Ht Ht')))).
Qed.

Lemma init_user_nonempty user_roles user_name tenant user_claims :
  self_user (init user_roles user_name tenant user_claims) <> "".
Proof. simpl. by destruct (String.eqb_spec user_name ""). Qed.

(** The user name of a context is never empty: for an instance made by the
    constructor and changed by any sequence of [set_user_information] calls,
    every context [_create_auth_context] builds, whatever the overrides,
    names a non-empty user. *)
Theorem auth_user_never_empty user_roles user_name tenant user_claims us
    user tenant' roles claims :
  let self := after_updates (init user_roles user_name tenant user_claims) us in
  auth_user (_create_auth_context self user tenant' roles claims) <> "".
Proof.
  cbv zeta.
  destruct (after_updates_keeps_nonempty (init user_roles user_name tenant user_claims) us)
    as (Hu & _).
  specialize (Hu (init_user_nonempty _ _ _ _)).
  unfold _create_auth_context. cbn [auth_user].
  destruct user as [s|]; simpl; [|done].
  by destruct (String.eqb_spec s "").
Qed.

End Identity.

(** ** The pass-through operations *)

Section PassThrough.

Context {S : Type} `{Further.Service S}.
Implicit Types (self : ManagedFiles) (w : World (Further.Logged S)).

Lemma further_stub_call_run method req w :
  Further.stub_call method req w
  = (match Further.answer w method req with
     | Further.Responded r => Return r
     | Further.TransportFailure => Raise RpcError
     end, Further.sent w method req).
Proof.
  unfold Further.stub_call, Further.answer, Further.sent.
  by destruct (Further.stub method req (Further.remote (server w))) as [[r|] s'].
Qed.

Lemma further_try_stub_call {A : Type} method req
    (k : Further.response -> M (Further.Logged S) A) (h : M (Further.Logged S) A) w :
  try_except_RpcError (Further.stub_call method req ≫= k) h w
  = match Further.answer w method req with
    | Further.Responded r =>
        try_except_RpcError (k r) h (Further.sent w method req)
    | Further.TransportFailure => h (Further.sent w method req)
    end.
Proof.
  unfold try_except_RpcError, mbind, M_bind, bind.
  rewrite further_stub_call_run. by destruct (Further.answer w method req).
Qed.

Lemma further_try_build {A : Type} ok req method
    (k : Further.response -> M (Further.Logged S) A) (h : M (Further.Logged S) A) w :
  try_except_RpcError
    (Further.build ok req ≫= (fun request => Further.stub_call method request ≫= k))
    h w
  = if ok
    then try_except_RpcError (Further.stub_call method req ≫= k) h w
    else (Raise ValueError, w).
Proof. by destruct ok. Qed.

(** Every pass-through operation whose integer arguments its request
    accepts issues exactly one call, to its own method and under the context
    resolved from its overrides, and does not raise.  A transport failure
    gives the failure value of the operation, and so does a response whose
    success flag is false, except for [entity_exists] and [check_permission],
    which do not read the flag.  With an integer argument the request does
    not accept ([permission], [required_permission], [keep_count]) the
    operation raises [ValueError] and issues no call.  The placeholder
    operations issue no call and return their failure value. *)
Theorem pass_through_uniform {A : Type} self (op : Further.operation A) w :
  match Further.method_of op with
  | None => Further.perform self op w = (Return (Further.failure_value op), w)
  | Some method =>
      if Further.accepted op
      then
        exists req,
          Further.auth_of req = Further.context_of self op
          /\ (Further.perform self op w).2 = Further.sent w method req
          /\ (exists a, (Further.perform self op w).1 = Return a)
          /\ (Further.answer w method req = Further.TransportFailure ->
              (Further.perform self op w).1 = Return (Further.failure_value op))
          /\ (Further.ignores_success op = false ->
              forall r,
                Further.answer w method req = Further.Responded r ->
                Further.success r = false ->
                (Further.perform self op w).1 = Return (Further.failure_value op))
      else Further.perform self op w = (Raise ValueError, w)
  end.
Proof.
  destruct op;
    cbn [Further.method_of Further.perform Further.accepted]; try reflexivity;
    unfold Further.mkdir, Further.entity_exists, Further.touch, Further.copy,
      Further.set_metadata_value, Further.get_metadata_value,
      Further.get_metadata_values, Further.delete_metadata_value,
      Further.get_metadata_for_version, Further.get_all_metadata_for_version,
      Further.grant_permission, Further.revoke_permission,
      Further.check_permission, Further.get_storage_usage,
      Further.purge_old_versions, Further.trigger_sync, Further.undelete_file,
      Further.restore_to_version;
    rewrite ?further_try_build;
    try (destruct (Further.accepts_permission _); [|reflexivity]);
    try (destruct (Further.accepts_keep_count _); [|reflexivity]);
    match goal with
    | |- context [Further.stub_call _ ?q] => exists q
    end;
    (split; [reflexivity|]);
    rewrite further_try_stub_call;
    destruct (Further.answer w _ _) as [r|];
    try destruct (Further.success r) eqn:Hok;
    (split; [reflexivity|]);
    (split; [by eexists|]);
    (split; [by intros|]);
    try (intros Hflag; discriminate Hflag);
    try (intros _ r' Hr'; discriminate Hr');
    try (intros _ r' [= <-] Hr; simpl in *; congruence).
Qed.

(** [entity_exists] and [check_permission] have no application-failure
    tier: they return the [exists] and [has_permission] field of whatever
    response arrives, also when its success flag is false.  [entity_exists]
    always sends the defaults of the instance and ignores [include_deleted].
    [check_permission] sends its request only when the request accepts
    [required_permission]; otherwise it raises [ValueError] and issues no
    call. *)
Theorem flagless_operations self entity_uid include_deleted
    resource_uid required_permission user tenant roles claims w r :
  let ex := Further.ExistsRequest entity_uid
              (_create_auth_context self None None None None) in
  let ck := Further.CheckPermissionRequest resource_uid required_permission
              (_create_auth_context self user tenant roles claims) in
  let check := Further.check_permission self resource_uid required_permission
                 user tenant roles claims w in
  (Further.answer w Further.Exists ex = Further.Responded r ->
   Further.entity_exists self entity_uid include_deleted w
   = (Return (Further.exists_ r), Further.sent w Further.Exists ex))
  /\ (Further.accepts_permission required_permission = true ->
      Further.answer w Further.CheckPermission ck = Further.Responded r ->
      check = (Return (Further.has_permission r),
               Further.sent w Further.CheckPermission ck))
  /\ (Further.accepts_permission required_permission = false ->
      check = (Raise ValueError, w)).
Proof.
  cbv zeta. unfold Further.entity_exists, Further.check_permission.
  rewrite further_try_build, !further_try_stub_call.
  refine (conj _ (conj _ _)).
  - by intros ->.
  - by intros -> ->.
  - by intros ->.
Qed.

(** [get_storage_usage] and [trigger_sync] send the tenant twice, resolved
    in two ways: the context takes the override whenever one is given, the
    [tenant] field of the request takes it only when it is not empty.  The two
    differ exactly when the override is the empty string and the instance
    tenant is not empty; the [tenant] field then names the instance tenant. *)
Theorem usage_and_sync_tenant self user tenant roles claims w :
  let auth_context := _create_auth_context self user tenant roles claims in
  let field := py_or tenant (self_tenant self) in
  (Further.get_storage_usage self user tenant roles claims w).2
  = Further.sent w Further.GetStorageUsage
      (Further.StorageUsageRequest auth_context field)
  /\ (Further.trigger_sync self user tenant roles claims w).2
     = Further.sent w Further.TriggerSync
         (Further.TriggerSyncRequest field auth_context)
  /\ (field <> auth_tenant auth_context
      <-> tenant = Some "" /\ self_tenant self <> "")
  /\ (self_tenant self <> "" -> field <> "").
Proof.
  cbv zeta. unfold Further.get_storage_usage, Further.trigger_sync.
  rewrite !further_try_stub_call. refine (conj _ (conj _ (conj _ _))).
  - destruct (Further.answer w _ _) as [r|]; [|done]. by destruct (Further.success r).
  - by destruct (Further.answer w _ _) as [r|].
  - unfold _create_auth_context. cbn [auth_tenant].
    destruct tenant as [t|]; simpl.
    + destruct (String.eqb_spec t "") as [->|Ht].
      * split; [by intros ?|]. by intros [_ ?].
      * split; [done|]. intros [[= ->] _]. done.
    + split; [done|]. by intros [? _].
  - intros Hself. destruct tenant as [t|]; simpl; [|done].
    by destruct (String.eqb_spec t "").
Qed.

End PassThrough.

(** ** Further runs on concrete services *)

Section MoreExamples.

Lemma revisions_success_shape_witness :
  let vs := [mkRevision "v2" "f" "alice"; mkRevision "v1" "f" "alice"] in
  rev_version <$> vs = ["v2"; "v1"]
  /\ Forall (fun v =>
       rev_user v = "alice"
       /\ has_dash (rev_name v) = false
       /\ (has_dash "a-b-f" = false -> rev_name v = "a-b-f")
       /\ (has_dash "a-b-f" = true ->
           exists p, "a-b-f" = String.append p (String "-" (rev_name v)))) vs.
Proof.
  exact (revisions_success_shape alice "a-b-f" None None None None
           (mkWorld two_revisions [])
           (mkResponse true [] (mkInfo "" 0 0 0) [] ["v2"; "v1"])
           [mkRevision "v2" "f" "alice"; mkRevision "v1" "f" "alice"]
           eq_refl eq_refl eq_refl).
Defined.

Lemma get_negative_offset_from_oldest_witness :
  (get alice "f" (-1) None None None None (mkWorld two_revisions [])).1
  = Return (Got {| getvalue := list_byte_of_string "content of v1"; tell := 0 |}).
Proof.
  destruct (@get_negative_offset_from_oldest _ oracle alice "f" (-1)
              None None None None (mkWorld two_revisions [])) as (v & Hv & Hrun).
  - vm_compute. split; [discriminate | reflexivity].
  - cbv zeta in Hrun. rewrite Hrun.
    vm_compute in Hv. injection Hv as <-. vm_compute. reflexivity.
Defined.

Lemma dir_listing_shape_witness :
  match (dir alice "d" false None None None None (mkWorld small_tree [])).1 with
  | Return (Got items) => length items = 3
  | _ => False
  end
  /\ exists err,
       (dir alice "d" false None None None None (mkWorld year_10000 [])).1
       = Raise (timestamp_exn err)
       /\ rejected_mtime alice alice_auth (entries year_10000_listing) err.
Proof.
  split.
  - pose proof (@dir_listing_shape _ oracle alice "d" false None None None None
                  (mkWorld small_tree []) small_tree_listing eq_refl eq_refl) as H.
    cbv zeta in H.
    assert (exists items,
              (dir alice "d" false None None None None (mkWorld small_tree [])).1
              = Return (Got items)) as [items E] by (eexists; reflexivity).
    rewrite E in H |- *. destruct H as (items' & [= <-] & Hall).
    apply Forall2_length in Hall. by rewrite <- Hall.
  - pose proof (@dir_listing_shape _ oracle alice "d" false None None None None
                  (mkWorld year_10000 []) year_10000_listing eq_refl eq_refl) as H.
    cbv zeta in H.
    assert ((dir alice "d" false None None None None (mkWorld year_10000 [])).1
            = Raise ValueError) as E by reflexivity.
    rewrite E in H |- *. destruct H as (err & Herr & Hrej).
    exists err. split; [by rewrite Herr|exact Hrej].
Defined.

Lemma dir_calls_witness :
  (calls (dir alice "d" false None None None None (mkWorld small_tree [])).2).*1
  = [ListDirectory; ListVersions; Stat; ListVersions].
Proof.
  destruct (@dir_calls _ oracle alice "d" false None None None None
              (mkWorld small_tree []) small_tree_listing eq_refl eq_refl)
    as (_ & Hreturned & _).
  assert (exists result,
            (dir alice "d" false None None None None (mkWorld small_tree [])).1
            = Return result) as [result E] by (eexists; reflexivity).
  rewrite (Hreturned result E). reflexivity.
Defined.

(** With a modification time in the year 10000 the listing raises after the
    [Stat] call of the file. *)
Example dir_year_10000 :
  let run := dir alice "d" false None None None None (mkWorld year_10000 []) in
  run.1 = Raise ValueError
  /\ (calls run.2).*1 = [ListDirectory; ListVersions; Stat]
  /\ (get_file_mtime alice "u-9" None None None None (mkWorld year_10000 [])).1
     = Raise ValueError
  /\ (file_name alice "u-9" None None None None (mkWorld year_10000 [])).1
     = Return ["late.txt"].
Proof. refine (conj _ (conj _ (conj _ _))); reflexivity. Qed.

(** The listing of [small_tree] costs four calls: the listing itself, two
    for the file with revisions and one for the file without. *)
Example dir_small_tree :
  let run := dir alice "d" false None None None None (mkWorld small_tree []) in
  (calls run.2).*1 = [ListDirectory; ListVersions; Stat; ListVersions]
  /\ match run.1 with
     | Return (Got items) =>
         (fun item => (item !! "version", item !! "mtime")) <$> items
     | _ => []
     end
     = [(None, None); (Some (ItemStr "v9"), Some (ItemTime None)); (None, None)].
Proof. split; reflexivity. Qed.

Lemma remove_directory_iff_witness :
  calls (remove alice "l" None None None None (mkWorld (all_of_type SYMLINK) [])).2
  = [(Stat, StatRequest "l" alice_auth); (RemoveFile, RemoveFileRequest "l" alice_auth)].
Proof.
  destruct (@remove_directory_iff _ oracle alice "l" None None None None
              (mkWorld (all_of_type SYMLINK) [])
              (mkResponse true [] (mkInfo "n" SYMLINK 0 0) [] []) eq_refl)
    as [_ Hfile].
  apply Hfile. intros [_ Htype]. discriminate Htype.
Defined.

(** A mapping claim loses its value on the way to the listing call of [get],
    and keeps it in the content fetch. *)
Example get_forwards_keys_only :
  let run := get alice "f" 0 None None None (Some [ClaimDict {[ "k" := "v" ]}])
               (mkWorld two_revisions []) in
  (fun c => auth_claims
              match c.2 with
              | ListVersionsRequest _ a | GetVersionRequest _ _ a => a
              | _ => alice_auth
              end) <$> calls run.2
  = [{[ "k" := "k" ]}; {[ "k" := "v" ]}].
Proof. vm_compute. reflexivity. Qed.

Example pass_through_on_failing_services :
  (Further.mkdir alice "" "docs" None None None None
     (mkWorld (Further.mkLogged Further.unreachable []) [])).1 = Return PyFalse
  /\ (Further.get_metadata_values alice "f" None None None None
        (mkWorld (Further.mkLogged Further.refusing []) [])).1 = Return ∅
  /\ (Further.entity_exists alice "f" false
        (mkWorld (Further.mkLogged Further.refusing []) [])).1 = Return true.
Proof. refine (conj _ (conj _ _)); reflexivity. Qed.

(** An integer argument outside the 32-bit range stops the call before it
    is sent. *)
Example purge_old_versions_out_of_range :
  let w := mkWorld (Further.mkLogged Further.refusing []) [] in
  Further.purge_old_versions alice "f" (2 ^ 31) None None None None w
  = (Raise ValueError, w)
  /\ (Further.purge_old_versions alice "f" 3 None None None None w).1
     = Return false.
Proof. split; reflexivity. Qed.

End MoreExamples.
